(** * odfdr-installer: a shallow embedding of [main.go]

    The installer is a straight-line orchestration of external commands
    ([oc], [jq]) and a few file writes.  Everything the program computes
    itself is embedded as Rocq functions; everything it asks of its host
    (process execution, the file system, JSON decoding) is an interface
    the development is parametric in.  Every call through that interface
    is recorded, with its result, in the trace of the run, so that
    statements such as "the registry login is never invoked" or "the
    catalog source is applied after the mirroring policy" are statements
    about traces. *)

From Stdlib Require Import Floats Ascii.
From stdpp Require Import gmap strings list fin_maps.

Local Set Warnings "-register-all".
Local Open Scope string_scope.

(** ** Go values *)

(** [[]byte] and [string] are both byte sequences. *)
Abbreviation bytes := string.

(** What [encoding/json] stores in an [any]: [nil], [bool], [float64],
    [string], [[]any] and [map[string]any]. *)
Inductive any : Type :=
| JNil
| JBool (b : bool)
| JFloat64 (f : float)
| JString (s : string)
| JSlice (l : list any)
| JMap (m : gmap string any).

(** [v == nil] / [v != nil] on an interface value. *)
Definition is_nil (v : any) : bool :=
  match v with JNil => true | _ => false end.

(** [m[k]] on a [map[string]any]: the zero value [nil] when [k] is absent. *)
Definition index (m : gmap string any) (k : string) : any :=
  default JNil (m !! k).

(** [v.(map[string]any)] in its two-result form: [None] is [ok == false]. *)
Definition assert_map (v : any) : option (gmap string any) :=
  match v with JMap m => Some m | _ => None end.

(** The result of calling into the host: a value or the text of a Go
    [error]. *)
Inductive result (A : Type) : Type :=
| Success (a : A)
| Failure (err : string).
Arguments Success {A} a.
Arguments Failure {A} err.

(** How a piece of the program ends: it returns a value (with a [nil]
    error), it returns a non-[nil] error carrying its message, it panics,
    or it ends the process through [os.Exit]. *)
Inductive outcome (A : Type) : Type :=
| Ok (a : A)
| Err (e : string)
| Panic (msg : string)
| Exit (code : Z).
Arguments Ok {A} a.
Arguments Err {A} e.
Arguments Panic {A} msg.
Arguments Exit {A} code.

(** ** [strings.Split] with a one-byte separator *)

Module strings.

(** [Split s sep] for a separator of one byte: the substrings between
    the separators, in order; a string without separator is returned as
    the only segment (also the empty string). *)
Fixpoint Split (s : string) (sep : ascii) : list string :=
  match s with
  | EmptyString => [EmptyString]
  | String c s' =>
      if decide (c = sep) then EmptyString :: Split s' sep
      else match Split s' sep with
           | [] => [String c EmptyString]
           | p :: ps => String c p :: ps
           end
  end.

(** [strings.Join] with a one-byte separator. *)
Fixpoint Join (elems : list string) (sep : ascii) : string :=
  match elems with
  | [] => EmptyString
  | [p] => p
  | p :: ps => p +:+ String sep (Join ps sep)
  end.

(** [strings.Count] of a one-byte separator. *)
Fixpoint Count (s : string) (sep : ascii) : nat :=
  match s with
  | EmptyString => 0
  | String c s' => (if decide (c = sep) then 1 else 0) + Count s' sep
  end.

End strings.

(** ** [getClusterName] *)

Definition dot : ascii := "."%char.

Definition getClusterName (url : string) : outcome string :=
  let parts := strings.Split url dot in
  if decide (length parts < 2) then
    Err "could not parse cluster name from URL"
  else
    match parts !! 1%nat with
    | Some p => Ok p
    | None => Panic "index out of range [1]"
    end.

(** ** The host: processes, files, JSON *)

(** An [exec.Cmd]: the program, its arguments, the entries appended to
    [os.Environ()] for it, and whether it inherits the installer's
    standard output and error. *)
Record Cmd : Type := mkCmd {
  Path : string;
  Args : list string;
  Env : list string;
  Stdio : bool
}.

Definition exec_Command (name : string) (args : list string) : Cmd :=
  {| Path := name; Args := args; Env := []; Stdio := false |}.

(** [c.Env = append(os.Environ(), entry)] *)
Definition set_Env (c : Cmd) (entry : string) : Cmd :=
  {| Path := Path c; Args := Args c; Env := [entry]; Stdio := Stdio c |}.

(** [c.Stdout = os.Stdout; c.Stderr = os.Stderr] *)
Definition set_Stdio (c : Cmd) : Cmd :=
  {| Path := Path c; Args := Args c; Env := Env c; Stdio := true |}.

(** What the program asks of the machine it runs on.  [Sys] is the state
    of everything outside the process (the cluster, the file system, the
    [PATH]); each operation may change it and may fail. *)
Class Host (Sys : Type) : Type := {
  (** [exec.LookPath]: is the command found? *)
  exec_LookPath : string -> Sys -> bool;
  (** start a process and wait for it: what it wrote to its standard
      output, or the error of [Cmd.Run] / [Cmd.Output] *)
  exec_Run : Cmd -> Sys -> result bytes * Sys;
  (** [os.TempDir] and [os.Getwd] *)
  os_TempDir : Sys -> string;
  os_Getwd : Sys -> string;
  (** create and open a new file in directory [dir] whose name is
      [pattern] with its last [*] replaced by a random string; the name
      of the file *)
  os_create_in : string -> string -> Sys -> result string * Sys;
  (** [os.WriteFile name data 0o644] *)
  os_write : string -> bytes -> Sys -> result unit * Sys
}.

Inductive Level : Type := INFO | ERROR.

(** One observable action of the process, with its result. *)
Inductive Event : Type :=
| EvLookPath (file : string) (found : bool)
| EvExec (c : Cmd) (r : result bytes)
| EvCreateTemp (dir pattern : string) (r : result string)
| EvClose (name : string)
| EvWriteFile (name : string) (data : bytes) (r : result unit)
| EvPrintln (line : string)
| EvLog (level : Level) (msg : string) (attrs : list (string * string)).

(** [flag.String name value usage] after [flag.Parse()]: the value given
    on the command line, or the default.  The command line is the map of
    the flags it sets; a command line [flag.Parse] rejects ends the
    process inside the [flag] package, before the code below runs. *)
Definition flag_String (cl : gmap string string) (name value : string) : string :=
  default value (cl !! name).

(** The four flags [main] defines, read after [flag.Parse()]. *)
Definition urlFlag (cl : gmap string string) : string :=
  flag_String cl "url" "".
Definition usernameFlag (cl : gmap string string) : string :=
  flag_String cl "username" "kubeadmin".
Definition passwordFlag (cl : gmap string string) : string :=
  flag_String cl "password" "".
Definition rhcephPasswordFlag (cl : gmap string string) : string :=
  flag_String cl "rhceph-password" "".

(** The double quote, for the command arguments that contain it. *)
Definition dquote : string := String (ascii_of_nat 34) EmptyString.

Declare Scope go_scope.

Section Installer.

Context {Sys : Type} `{!Host Sys}.

(** The syntax level of [encoding/json]: the Go value a JSON text
    decodes to, or the text of the syntax error. *)
Variable json_decode : bytes -> result any.

(** The two embedded manifests, [icsp.yaml] and
    [odf-catalogsource.yaml]. *)
Variable icspYAML : string.
Variable odfCatalogSourceYAML : string.

(** *** The monad of the process: host state, trace, early ends *)

Definition M (A : Type) : Type := Sys -> outcome A * list Event * Sys.

Definition ret {A} (a : A) : M A := fun s => (Ok a, [], s).

Definition bind {A B} (m : M A) (f : A -> M B) : M B := fun s =>
  match m s with
  | (Ok a, t1, s1) =>
      match f a s1 with (r, t2, s2) => (r, (t1 ++ t2)%list, s2) end
  | (Err e, t1, s1) => (Err e, t1, s1)
  | (Panic msg, t1, s1) => (Panic msg, t1, s1)
  | (Exit code, t1, s1) => (Exit code, t1, s1)
  end.

Notation "x ← y ; z" := (bind y (fun x => z))
  (at level 20, y at level 100, z at level 200, only parsing) : go_scope.
Notation "x ;; z" := (bind x (fun _ => z))
  (at level 100, z at level 200, only parsing, right associativity) : go_scope.
Local Open Scope go_scope.

Definition emit (e : Event) : M unit := fun s => (Ok tt, [e], s).

(** [return fmt.Errorf(...)] *)
Definition fail {A} (e : string) : M A := fun s => (Err e, [], s).

Definition panic {A} (msg : string) : M A := fun s => (Panic msg, [], s).

Definition os_Exit {A} (code : Z) : M A := fun s => (Exit code, [], s).

(** A pure computation that may fail, run inside the process. *)
Definition lift {A} (o : outcome A) : M A := fun s => (o, [], s).

(** [v, err := call] for a call into the host *)
Definition host {A} (call : Sys -> result A * Sys)
    (ev : result A -> Event) : M (result A) := fun s =>
  match call s with (r, s') => (Ok r, [ev r], s') end.

(** [v, err := m; if err != nil { return fmt.Errorf(msg + "%v", err) }] *)
Definition try {A} (m : M (result A)) (msg : string) : M A :=
  r ← m;
  match r with
  | Success a => ret a
  | Failure err => fail (msg +:+ err)
  end.

(** [err := m] where [m] is one of the program's functions: the error
    becomes a value. *)
Definition catch {A} (m : M A) : M (result A) := fun s =>
  match m s with
  | (Ok a, t, s') => (Ok (Success a), t, s')
  | (Err e, t, s') => (Ok (Failure e), t, s')
  | (Panic msg, t, s') => (Panic msg, t, s')
  | (Exit code, t, s') => (Exit code, t, s')
  end.

(** *** Wrappers of the library calls the program makes *)

Definition exec_LookPath' (file : string) : M bool := fun s =>
  let found := exec_LookPath file s in (Ok found, [EvLookPath file found], s).

(** [Cmd.Output]: run and return the standard output. *)
Definition Output (c : Cmd) : M (result bytes) :=
  host (exec_Run c) (EvExec c).

(** [Cmd.Run]: run, the standard output is not kept. *)
Definition Run (c : Cmd) : M (result unit) :=
  r ← host (exec_Run c) (EvExec c);
  ret (match r with Success _ => Success tt | Failure err => Failure err end).

(** [os.CreateTemp]: an empty [dir] stands for [os.TempDir()]. *)
Definition os_CreateTemp (dir pattern : string) : M (result string) := fun s =>
  let dir' := if decide (dir = "") then os_TempDir s else dir in
  host (os_create_in dir' pattern) (EvCreateTemp dir' pattern) s.

Definition os_WriteFile (name : string) (data : bytes) : M (result unit) :=
  host (os_write name data) (EvWriteFile name data).

Definition fmt_Println (line : string) : M unit := emit (EvPrintln line).

Definition slog_Info (msg : string) (attrs : list (string * string)) : M unit :=
  emit (EvLog INFO msg attrs).

Definition slog_Error (msg : string) (attrs : list (string * string)) : M unit :=
  emit (EvLog ERROR msg attrs).

(** The name [encoding/json] gives the JSON kind of a decoded value in
    its type errors. *)
Definition json_kind (v : any) : string :=
  match v with
  | JNil => "null"
  | JBool _ => "bool"
  | JFloat64 _ => "number"
  | JString _ => "string"
  | JSlice _ => "array"
  | JMap _ => "object"
  end.

(** [var m map[string]any; err := json.Unmarshal(data, &m)]: a JSON
    object fills the map, JSON [null] leaves it [nil] (read like the
    empty map) without error, any other JSON value is a type error. *)
Definition json_Unmarshal (data : bytes) : result (gmap string any) :=
  match json_decode data with
  | Failure err => Failure err
  | Success (JMap m) => Success m
  | Success JNil => Success ∅
  | Success v =>
      Failure ("json: cannot unmarshal " +:+ json_kind v +:+
               " into Go value of type map[string]interface {}")
  end.

(** *** The program *)

(** [for _, x := range xs { if err := f(x); err != nil { return err } }] *)
Fixpoint for_range (xs : list string) (f : string -> M unit) : M unit :=
  match xs with
  | [] => ret tt
  | x :: xs' => f x;; for_range xs' f
  end.

Definition checkCommandExists (command : string) : M unit :=
  found ← exec_LookPath' command;
  if found then ret tt
  else fail (command +:+ " is not installed or not in PATH").

Definition checkRequiredCommands : M unit :=
  let requiredCommands := ["jq"; "oc"] in
  for_range requiredCommands checkCommandExists.

(** The [*os.File] is represented by its name, the only thing the
    program uses of it. *)
Definition getKubeconfig (cluster : string) : M string :=
  kconfig ← try (os_CreateTemp "" (cluster +:+ "-kubeconfig" +:+ "-*")) "";
  emit (EvClose kconfig);;
  ret kconfig.

Definition loginCmd (url username password kconfig : string) : Cmd :=
  set_Env
    (set_Stdio (exec_Command "oc" ["login"; url; "-u"; username; "-p"; password]))
    ("KUBECONFIG=" +:+ kconfig).

Definition login (url username password kconfig : string) : M unit :=
  slog_Info "logging in using kubeconfig"
    [("kubeconfig", kconfig); ("cluster", url)];;
  try (Run (loginCmd url username password kconfig))
    "error logging into OpenShift: ".

Definition showUsage : M unit :=
  fmt_Println "Usage: ./odfdr-installer -url <URL> -username <username> -password <password> -rhceph-password <password>";;
  fmt_Println "Example: ./odfdr-installer -url ./odfdr-installer -url api.cluster.example.com:6443 -password abc -rhceph-password=xyz".

Definition showUsageAndExit {A} : M A :=
  showUsage;;
  os_Exit 1.

Definition applyCmd (fileName kconfig : string) : Cmd :=
  set_Env (exec_Command "oc" ["apply"; "-f"; fileName])
    ("KUBECONFIG=" +:+ kconfig).

Definition addCatalogSource (clusterName kconfig catalogSourceYAML : string) : M unit :=
  let catalogSourceFileName := clusterName +:+ "-catalogsource.yaml" in
  try (os_WriteFile catalogSourceFileName catalogSourceYAML)
    "error writing CatalogSource to file: ";;
  try (Run (applyCmd catalogSourceFileName kconfig))
    "error applying CatalogSource: ".

Definition addICSP (clusterName kconfig : string) : M unit :=
  let icspFileName := clusterName +:+ "-icsp.yaml" in
  try (os_WriteFile icspFileName icspYAML)
    "error writing ICSP to file: ";;
  try (Run (applyCmd icspFileName kconfig))
    "error applying ICSP: ".

Definition getPullSecretCmd (kconfig : string) : Cmd :=
  set_Env
    (exec_Command "oc"
       ["get"; "secret/pull-secret"; "-n"; "openshift-config";
        "--template={{index .data " +:+ dquote +:+ ".dockerconfigjson" +:+
          dquote +:+ " | base64decode}}"])
    ("KUBECONFIG=" +:+ kconfig).

Definition registryLoginCmd (appendFileName kconfig rhcephPassword : string) : Cmd :=
  set_Env
    (exec_Command "oc"
       ["registry"; "login"; "--registry=quay.io/rhceph-dev";
        "--auth-basic=" +:+ rhcephPassword; "--to=" +:+ appendFileName])
    ("KUBECONFIG=" +:+ kconfig).

Definition mergeCmd (pullSecretFileName appendFileName : string) : Cmd :=
  exec_Command "jq" ["-s"; ".[0] * .[1]"; pullSecretFileName; appendFileName].

Definition updateCmd (newPullSecretFileName kconfig : string) : Cmd :=
  set_Env
    (exec_Command "oc"
       ["set"; "data"; "secret/pull-secret"; "-n"; "openshift-config";
        "--from-file=.dockerconfigjson=" +:+ newPullSecretFileName])
    ("KUBECONFIG=" +:+ kconfig).

Definition addRHCEPHAuth (clusterName kconfig rhcephPassword : string) : M unit :=
  pullSecretOutput ← try (Output (getPullSecretCmd kconfig))
    "error getting pull secret: ";

  let pullSecretFileName := clusterName +:+ "-pull-secret.json" in
  try (os_WriteFile pullSecretFileName pullSecretOutput)
    "error writing pull secret to file: ";;

  pullSecret ← try (ret (json_Unmarshal pullSecretOutput))
    "error parsing pull secret JSON: ";

  match assert_map (index pullSecret "auths") with
  | None => fail "invalid pull secret format"
  | Some auths =>
  let elementsCount := size auths in

  if is_nil (index pullSecret "auths") then
    fail "pull secret does not contain auths"
  else

  match assert_map (index pullSecret "auths") with
  | None => panic "interface conversion: interface {} is not map[string]interface {}"
  | Some auths' =>
  if negb (is_nil (index auths' "quay.io/rhceph-dev")) then
    slog_Info "RHCEPH auth already exists in pull secret" [];;
    ret tt
  else

  let appendFileName := clusterName +:+ "-append-pull-secret.json" in
  try (Run (registryLoginCmd appendFileName kconfig rhcephPassword))
    "error logging into registry: ";;

  let newPullSecretFileName := clusterName +:+ "-new-pull-secret.json" in
  mergedOutput ← try (Output (mergeCmd pullSecretFileName appendFileName))
    "error merging pull secrets: ";

  try (os_WriteFile newPullSecretFileName mergedOutput)
    "error writing merged pull secret to file: ";;

  try (Run (updateCmd newPullSecretFileName kconfig))
    "error updating pull secret: ";;

  pullSecretOutput' ← try (Output (getPullSecretCmd kconfig))
    "error getting pull secret: ";

  newPullSecret ← try (ret (json_Unmarshal mergedOutput))
    "error parsing new pull secret JSON: ";

  match assert_map (index newPullSecret "auths") with
  | None => fail "invalid new pull secret format"
  | Some newAuths =>

  let newElementsCount := size newAuths in

  if decide (newElementsCount ≠ elementsCount + 1) then
    fail "pull secret does not contain the expected number of elements"
  else

  ret tt
  end end end.

(** [if err := m; err != nil { slog.Error(msg, "error", err); os.Exit(1) }] *)
Definition or_exit {A} (m : M A) (msg : string) : M A :=
  r ← catch m;
  match r with
  | Success a => ret a
  | Failure err => slog_Error msg [("error", err)];; os_Exit 1
  end.

Definition main (cl : gmap string string) : M unit :=
  (if decide (urlFlag cl = "") then
     slog_Error "error: URL is required" [];;
     showUsageAndExit
   else ret tt);;

  (if decide (passwordFlag cl = "") then
     slog_Error "error: password is required" [];;
     showUsageAndExit
   else ret tt);;

  (if decide (rhcephPasswordFlag cl = "") then
     slog_Error "error: RHCEPH password is required" [];;
     showUsageAndExit
   else ret tt);;

  let url := urlFlag cl in
  let username := usernameFlag cl in
  let password := passwordFlag cl in
  let rhcephPassword := rhcephPasswordFlag cl in

  or_exit checkRequiredCommands "error checking required commands";;

  clusterName ← or_exit (lift (getClusterName url)) "error getting cluster name";

  kconfig ← or_exit (getKubeconfig clusterName) "error creating kubeconfig file";

  or_exit (login url username password kconfig) "error logging into OpenShift";;

  or_exit (addRHCEPHAuth clusterName kconfig rhcephPassword)
    "error adding RHCEPH auth to pull secret";;

  or_exit (addICSP clusterName kconfig) "error adding ICSP";;

  or_exit (addCatalogSource clusterName kconfig odfCatalogSourceYAML)
    "error adding CatalogSource".

(** The exit status of the process: 0 when [main] returns, the argument
    of [os.Exit], 2 after a panic.  [main] has no error result, so [Err]
    does not reach the top; it is given the status of a crash. *)
Definition exit_status {A} (o : outcome A) : Z :=
  match o with
  | Ok _ => 0
  | Exit code => code
  | Panic _ => 2
  | Err _ => 2
  end.

End Installer.

(** ** Vocabulary of the statements *)

Section Vocabulary.

Context {Sys : Type} `{!Host Sys}.
Variable json_decode : bytes -> result any.
Variable icspYAML : string.
Variable odfCatalogSourceYAML : string.

(** The [auths] mapping of a pull-secret document, as
    [addRHCEPHAuth] reads it: [json.Unmarshal], then
    [doc["auths"].(map[string]any)]. *)
Definition auths_of (data : bytes) : option (gmap string any) :=
  match json_Unmarshal json_decode data with
  | Success doc => assert_map (index doc "auths")
  | Failure _ => None
  end.

(** A document that is not JSON, is not a JSON mapping, has no [auths]
    field, or has an [auths] field that is not a mapping. *)
Definition malformed (data : bytes) : Prop :=
  match json_decode data with
  | Success (JMap doc) =>
      match doc !! "auths" with
      | Some (JMap _) => False
      | _ => True
      end
  | _ => True
  end.

(** The host call recorded by the event did not fail. *)
Definition succeeded (e : Event) : bool :=
  match e with
  | EvExec _ (Failure _) | EvCreateTemp _ _ (Failure _)
  | EvWriteFile _ _ (Failure _) => false
  | _ => true
  end.

(** In the trace, every event satisfying [Q] comes after some event
    satisfying [P]. *)
Definition preceded_by (P Q : Event -> Prop) (t : list Event) : Prop :=
  forall t1 e t2, t = (t1 ++ e :: t2)%list -> Q e -> Exists P t1.

(** What [main] does between the flag checks and the first step: it
    looks for the tools, derives the cluster name and creates the
    kubeconfig file, and ends the process with status 1 when one of
    these fails. *)
Definition preflight (url : string) : M (Sys:=Sys) (string * string) :=
  bind (or_exit checkRequiredCommands "error checking required commands") (fun _ =>
  bind (or_exit (lift (getClusterName url)) "error getting cluster name") (fun clusterName =>
  bind (or_exit (getKubeconfig clusterName) "error creating kubeconfig file") (fun kconfig =>
  ret (clusterName, kconfig)))).

(** Fail-fast sequencing, as the specification words it: the steps run
    in the order of the list; the first one that returns an error is
    logged under its message and ends the process with status 1, and
    no later step runs; after the last step the process ends normally. *)
Fixpoint fail_fast (steps : list (M (Sys:=Sys) unit * string)) : M (Sys:=Sys) unit :=
  match steps with
  | [] => ret tt
  | (step, msg) :: rest => fun s =>
      match step s with
      | (Ok _, t, s1) =>
          match fail_fast rest s1 with (r, t', s2) => (r, (t ++ t')%list, s2) end
      | (Err e, t, s1) => (Exit 1, (t ++ [EvLog ERROR msg [("error", e)]])%list, s1)
      | (Panic m, t, s1) => (Panic m, t, s1)
      | (Exit code, t, s1) => (Exit code, t, s1)
      end
  end.

(** The four steps of a run, in the order of the specification. *)
Definition steps (url username password rhcephPassword clusterName kconfig : string)
    : list (M (Sys:=Sys) unit * string) :=
  [ (login url username password kconfig, "error logging into OpenShift");
    (addRHCEPHAuth json_decode clusterName kconfig rhcephPassword,
     "error adding RHCEPH auth to pull secret");
    (addICSP icspYAML clusterName kconfig, "error adding ICSP");
    (addCatalogSource clusterName kconfig odfCatalogSourceYAML,
     "error adding CatalogSource") ].

(** The names of the scratch files of a run for cluster [c] that the
    installer writes itself. *)
Definition scratch_names (c : string) : list string :=
  [ c +:+ "-pull-secret.json"; c +:+ "-new-pull-secret.json";
    c +:+ "-icsp.yaml"; c +:+ "-catalogsource.yaml" ].

(** The event places its file where a run for cluster [c] may: a
    temporary file is created in directory [tmpdir] from the
    kubeconfig pattern, a file is written under one of the scratch
    names, a registry login stores its credential in
    [<c>-append-pull-secret.json]. *)
Definition scratch_ok (tmpdir c : string) (e : Event) : Prop :=
  match e with
  | EvCreateTemp dir pattern _ =>
      dir = tmpdir /\ pattern = c +:+ "-kubeconfig" +:+ "-*"
  | EvWriteFile name _ _ => In name (scratch_names c)
  | EvExec cmd _ =>
      forall f k pw, cmd = registryLoginCmd f k pw ->
                     f = c +:+ "-append-pull-secret.json"
  | _ => True
  end.

(** A function of the program returns: it neither panics nor ends the
    process. *)
Definition returns {A} (r : outcome A) : Prop :=
  match r with Ok _ | Err _ => True | Panic _ | Exit _ => False end.

(** The events a run of [addRHCEPHAuth] can consist of. *)
Definition auth_event (c k pw : string) (e : Event) : Prop :=
  (exists res, e = EvExec (getPullSecretCmd k) res)
  \/ (exists d res, e = EvWriteFile (c +:+ "-pull-secret.json") d res)
  \/ (exists l m a, e = EvLog l m a)
  \/ (exists res, e = EvExec (registryLoginCmd (c +:+ "-append-pull-secret.json") k pw) res)
  \/ (exists res, e = EvExec (mergeCmd (c +:+ "-pull-secret.json")
                                (c +:+ "-append-pull-secret.json")) res)
  \/ (exists d res, e = EvWriteFile (c +:+ "-new-pull-secret.json") d res)
  \/ (exists res, e = EvExec (updateCmd (c +:+ "-new-pull-secret.json") k) res).

(** The mirroring policy of cluster [c] was applied, successfully. *)
Definition icsp_applied (c kconfig : string) (e : Event) : Prop :=
  exists out, e = EvExec (applyCmd (c +:+ "-icsp.yaml") kconfig) (Success out).

(** The catalog source of cluster [c] is submitted. *)
Definition catalog_apply (c kconfig : string) (e : Event) : Prop :=
  exists res, e = EvExec (applyCmd (c +:+ "-catalogsource.yaml") kconfig) res.

End Vocabulary.

(** ** Failures and the order of calls *)

(** The host call recorded by the event failed, or the command looked
    for was not found. *)
Definition failed (e : Event) : bool :=
  match e with
  | EvLookPath _ false
  | EvExec _ (Failure _) | EvCreateTemp _ _ (Failure _)
  | EvWriteFile _ _ (Failure _) => true
  | _ => false
  end.

(** A line logged through [slog.Error]. *)
Definition error_log (e : Event) : bool :=
  match e with EvLog ERROR _ _ => true | _ => false end.

(** Up to the first failure nothing is said about the trace; the first
    failure, if there is one, is followed by one [slog.Error] line and
    nothing else. *)
Fixpoint halts_at_failure (t : list Event) : bool :=
  match t with
  | [] => true
  | e :: t' =>
      if failed e then
        match t' with
        | [EvLog ERROR _ _] => true
        | _ => false
        end
      else halts_at_failure t'
  end.

(** The command is an [oc] that is pointed at the kubeconfig file [k]
    through its environment, or a [jq] run in the installer's own
    environment. *)
Definition uses_kubeconfig (k : string) (c : Cmd) : Prop :=
  (Path c = "oc" /\ Env c = ["KUBECONFIG=" +:+ k])
  \/ (Path c = "jq" /\ Env c = []).

(** An event of the four steps: a command, a file written or a log
    line. *)
Definition step_event (e : Event) : bool :=
  match e with
  | EvExec _ _ | EvWriteFile _ _ _ | EvLog _ _ _ => true
  | _ => false
  end.

(** The host calls of a credential merge in which every call succeeds,
    in the order [addRHCEPHAuth] makes them: read the secret, store the
    snapshot, log into the registry, merge, store the merged document,
    push it, read the secret again.  [out], [merged] and the others are
    what the commands print. *)
Definition auth_calls (c k pw : string) (out o1 merged o2 o3 : bytes) : list Event :=
  [ EvExec (getPullSecretCmd k) (Success out);
    EvWriteFile (c +:+ "-pull-secret.json") out (Success tt);
    EvExec (registryLoginCmd (c +:+ "-append-pull-secret.json") k pw) (Success o1);
    EvExec (mergeCmd (c +:+ "-pull-secret.json") (c +:+ "-append-pull-secret.json"))
      (Success merged);
    EvWriteFile (c +:+ "-new-pull-secret.json") merged (Success tt);
    EvExec (updateCmd (c +:+ "-new-pull-secret.json") k) (Success o2);
    EvExec (getPullSecretCmd k) (Success o3) ].

(** The same call into the host, whatever its result. *)
Definition same_call (e e' : Event) : Prop :=
  match e, e' with
  | EvExec c _, EvExec c' _ => c = c'
  | EvWriteFile n d _, EvWriteFile n' d' _ => n = n' /\ d = d'
  | _, _ => False
  end.

(** ** A simulated host

    A small machine to run the installer on: a file system, a cluster
    holding the pull secret, an [oc] and a [jq] that understand the
    command lines the installer builds, and a JSON reader and writer for
    the documents pull secrets are made of (objects, arrays, strings,
    [true], [false], [null]; no numbers, no escapes). *)

Module Sim.

Definition is_space (c : ascii) : bool :=
  bool_decide (c = " "%char) || bool_decide (c = ascii_of_nat 9)
  || bool_decide (c = ascii_of_nat 10) || bool_decide (c = ascii_of_nat 13).

Fixpoint skip_ws (s : string) : string :=
  match s with
  | String c s' => if is_space c then skip_ws s' else s
  | EmptyString => s
  end.

(** [strip_prefix p s]: the rest of [s] after its prefix [p]. *)
Fixpoint strip_prefix (p s : string) : option string :=
  match p, s with
  | EmptyString, _ => Some s
  | String a p', String b s' =>
      if decide (a = b) then strip_prefix p' s' else None
  | String _ _, EmptyString => None
  end.

(** The characters up to the closing quote, and what follows it. *)
Fixpoint read_string (s : string) : option (string * string) :=
  match s with
  | EmptyString => None
  | String c s' =>
      if decide (c = ascii_of_nat 34) then Some (EmptyString, s')
      else if decide (c = ascii_of_nat 92) then None
      else '(str, rest) ← read_string s'; Some (String c str, rest)
  end.

Fixpoint value (fuel : nat) (s : string) : option (any * string) :=
  match fuel with
  | O => None
  | S fuel =>
      match skip_ws s with
      | String c s' =>
          if decide (c = ascii_of_nat 34) then
            '(str, rest) ← read_string s'; Some (JString str, rest)
          else if decide (c = "["%char) then
            match skip_ws s' with
            | String "]"%char rest => Some (JSlice [], rest)
            | _ => elements fuel s' []
            end
          else if decide (c = "{"%char) then
            match skip_ws s' with
            | String "}"%char rest => Some (JMap ∅, rest)
            | _ => members fuel s' ∅
            end
          else
            match strip_prefix "null" (String c s'),
                  strip_prefix "true" (String c s'),
                  strip_prefix "false" (String c s') with
            | Some rest, _, _ => Some (JNil, rest)
            | _, Some rest, _ => Some (JBool true, rest)
            | _, _, Some rest => Some (JBool false, rest)
            | _, _, _ => None
            end
      | EmptyString => None
      end
  end
with elements (fuel : nat) (s : string) (acc : list any) : option (any * string) :=
  match fuel with
  | O => None
  | S fuel =>
      '(v, rest) ← value fuel s;
      match skip_ws rest with
      | String ","%char rest' => elements fuel rest' (acc ++ [v])
      | String "]"%char rest' => Some (JSlice (acc ++ [v]), rest')
      | _ => None
      end
  end
with members (fuel : nat) (s : string) (acc : gmap string any) : option (any * string) :=
  match fuel with
  | O => None
  | S fuel =>
      match skip_ws s with
      | String c s1 =>
          if decide (c = ascii_of_nat 34) then
            '(k, rest) ← read_string s1;
            match skip_ws rest with
            | String ":"%char rest1 =>
                '(v, rest2) ← value fuel rest1;
                match skip_ws rest2 with
                | String ","%char rest3 => members fuel rest3 (<[k:=v]> acc)
                | String "}"%char rest3 => Some (JMap (<[k:=v]> acc), rest3)
                | _ => None
                end
            | _ => None
            end
          else None
      | EmptyString => None
      end
  end.

(** The reader: the whole text must be one JSON value. *)
Definition decode (data : bytes) : result any :=
  match value (S (String.length data)) data with
  | Some (v, rest) =>
      match skip_ws rest with
      | EmptyString => Success v
      | _ => Failure "invalid character after top-level value"
      end
  | None => Failure "invalid character or unexpected end of JSON input"
  end.

Fixpoint join (sep : string) (l : list string) : string :=
  match l with
  | [] => EmptyString
  | [x] => x
  | x :: l' => x +:+ sep +:+ join sep l'
  end.

(** The writer, to nesting depth [fuel]. *)
Fixpoint encode (fuel : nat) (v : any) : string :=
  match v with
  | JNil => "null"
  | JBool true => "true"
  | JBool false => "false"
  | JFloat64 _ => "0"
  | JString s => dquote +:+ s +:+ dquote
  | JSlice l =>
      match fuel with
      | O => "[]"
      | S fuel => "[" +:+ join "," (map (encode fuel) l) +:+ "]"
      end
  | JMap m =>
      match fuel with
      | O => "{}"
      | S fuel =>
          "{" +:+ join ","
            (map (fun kv => dquote +:+ kv.1 +:+ dquote +:+ ":" +:+ encode fuel kv.2)
               (map_to_list m)) +:+ "}"
      end
  end.

(** [jq]'s [a * b] on two objects: the keys of both, the right value
    winning, two objects under one key merged the same way. *)
Fixpoint deep_merge (fuel : nat) (a b : gmap string any) : gmap string any :=
  match fuel with
  | O => b ∪ a
  | S fuel =>
      union_with (fun x y =>
        match x, y with
        | JMap mx, JMap my => Some (JMap (deep_merge fuel mx my))
        | _, _ => Some y
        end) a b
  end.

Definition depth : nat := 16.

(** The machine. *)
Record World : Type := mkWorld {
  cwd : string;
  tmp : string;
  files : gmap string bytes;
  installed : list string;
  (** [oc] and [jq] invocations that fail, by their first argument *)
  refused : list string;
  disk_full : bool;
  (** the [.dockerconfigjson] of [secret/pull-secret] on the cluster *)
  secret : bytes;
  (** the cluster accepts [oc set data] and keeps the old secret *)
  stale : bool;
  (** the credential document [oc registry login] writes *)
  registry_doc : bytes;
  (** the manifests applied to the cluster, oldest first *)
  applied : list bytes;
  (** the random part of the next temporary file name *)
  random : string
}.

Definition abs (w : World) (name : string) : string :=
  match name with
  | String "/"%char _ => name
  | _ => cwd w +:+ "/" +:+ name
  end.

Definition put_file (w : World) (name : string) (data : bytes) : World :=
  mkWorld (cwd w) (tmp w) (<[abs w name := data]> (files w)) (installed w)
    (refused w) (disk_full w) (secret w) (stale w) (registry_doc w)
    (applied w) (random w).

Definition put_secret (w : World) (data : bytes) : World :=
  mkWorld (cwd w) (tmp w) (files w) (installed w) (refused w) (disk_full w)
    data (stale w) (registry_doc w) (applied w) (random w).

Definition put_applied (w : World) (data : bytes) : World :=
  mkWorld (cwd w) (tmp w) (files w) (installed w) (refused w) (disk_full w)
    (secret w) (stale w) (registry_doc w) (applied w ++ [data]) (random w).

(** The file name with the last [*] of the pattern replaced. *)
Fixpoint fill_pattern (pattern rnd : string) : option string :=
  match pattern with
  | EmptyString => None
  | String c p' =>
      match fill_pattern p' rnd with
      | Some r => Some (String c r)
      | None => if decide (c = "*"%char) then Some (rnd +:+ p') else None
      end
  end.

Definition create_in (dir pattern : string) (w : World) : result string * World :=
  if disk_full w then (Failure "no space left on device", w)
  else
    let name := dir +:+ "/" +:+ default (pattern +:+ random w) (fill_pattern pattern (random w)) in
    (Success name, put_file w name EmptyString).

Definition write (name : string) (data : bytes) (w : World) : result unit * World :=
  if disk_full w then (Failure "no space left on device", w)
  else (Success tt, put_file w name data).

Definition jq_merge (f1 f2 : string) (w : World) : result bytes :=
  match files w !! abs w f1, files w !! abs w f2 with
  | Some d1, Some d2 =>
      match decode d1, decode d2 with
      | Success (JMap a), Success (JMap b) =>
          Success (encode depth (JMap (deep_merge depth a b)))
      | _, _ => Failure "exit status 5"
      end
  | _, _ => Failure "exit status 2"
  end.

Definition last_arg (args : list string) (p : string) : option string :=
  last args ≫= strip_prefix p.

Definition run (c : Cmd) (w : World) : result bytes * World :=
  if bool_decide (Path c ∈ installed w) then
    match Path c, Args c with
    | "jq", ["-s"; ".[0] * .[1]"; f1; f2] =>
        if bool_decide ("jq" ∈ refused w) then (Failure "exit status 1", w)
        else (jq_merge f1 f2 w, w)
    | "oc", sub :: args =>
        if bool_decide (sub ∈ refused w) then (Failure "exit status 1", w)
        else if decide (sub = "login") then (Success "Login successful.", w)
        else if decide (sub = "get") then (Success (secret w), w)
        else if decide (sub = "registry") then
          match last_arg args "--to=" with
          | Some f => (Success EmptyString, put_file w f (registry_doc w))
          | None => (Failure "exit status 1", w)
          end
        else if decide (sub = "set") then
          match last_arg args "--from-file=.dockerconfigjson=" ≫= (fun f => files w !! abs w f) with
          | Some d => (Success "secret/pull-secret data updated",
                       if stale w then w else put_secret w d)
          | None => (Failure "exit status 1", w)
          end
        else if decide (sub = "apply") then
          match last args ≫= (fun f => files w !! abs w f) with
          | Some d => (Success "configured", put_applied w d)
          | None => (Failure "exit status 1", w)
          end
        else (Failure "exit status 1", w)
    | _, _ => (Failure "exit status 2", w)
    end
  else (Failure "executable file not found in $PATH", w).

#[global] Instance host : Host World := {|
  exec_LookPath file w := bool_decide (file ∈ installed w);
  exec_Run := run;
  os_TempDir := tmp;
  os_Getwd := cwd;
  os_create_in := create_in;
  os_write := write
|}.

(** Documents. *)
Definition text (v : any) : bytes := encode depth v.

Definition credential (auth : string) : any :=
  JMap {[ "auth" := JString auth ]}.

Definition auths_doc (entries : gmap string any) : any :=
  JMap {[ "auths" := JMap entries ]}.

(** A cluster with one pull credential, and a registry login that
    yields the one credential asked for. *)
Definition cluster : World := {|
  cwd := "/work";
  tmp := "/tmp";
  files := ∅;
  installed := ["oc"; "jq"];
  refused := [];
  disk_full := false;
  secret := text (auths_doc {[ "registry.redhat.io" := credential "abc" ]});
  stale := false;
  registry_doc := text (auths_doc {[ "quay.io/rhceph-dev" := credential "xyz" ]});
  applied := [];
  random := "2718281828"
|}.

Definition with_secret (w : World) (v : any) : World := put_secret w (text v).

Definition with_registry_doc (w : World) (v : any) : World :=
  mkWorld (cwd w) (tmp w) (files w) (installed w) (refused w) (disk_full w)
    (secret w) (stale w) (text v) (applied w) (random w).

Definition with_refused (w : World) (subs : list string) : World :=
  mkWorld (cwd w) (tmp w) (files w) (installed w) subs (disk_full w)
    (secret w) (stale w) (registry_doc w) (applied w) (random w).

Definition with_stale (w : World) : World :=
  mkWorld (cwd w) (tmp w) (files w) (installed w) (refused w) (disk_full w)
    (secret w) true (registry_doc w) (applied w) (random w).

(** The command line of the README's example. *)
Definition example_flags : gmap string string :=
  {[ "url" := "api.cluster.example.com:6443";
     "password" := "abc";
     "rhceph-password" := "xyz" ]}.

(** Scenarios. *)

(** The registry login hands out a second credential besides the one
    asked for. *)
Definition two_credentials : World :=
  with_registry_doc cluster
    (auths_doc {[ "quay.io/rhceph-dev" := credential "xyz";
                  "mirror.example.com" := credential "pqr" ]}).

(** The registry login hands out no credential (scenario C of the
    specification). *)
Definition no_credential : World :=
  with_registry_doc cluster (auths_doc ∅).

(** The pull secret binds the registry to [null]. *)
Definition null_entry : World :=
  with_secret cluster
    (auths_doc {[ "registry.redhat.io" := credential "abc";
                  "quay.io/rhceph-dev" := JNil ]}).

(** The pull secret already holds the registry's credential. *)
Definition configured : World :=
  with_secret cluster
    (auths_doc {[ "registry.redhat.io" := credential "abc";
                  "quay.io/rhceph-dev" := credential "xyz" ]}).

(** The pull secret is a JSON array. *)
Definition not_a_mapping : World :=
  with_secret cluster (JSlice [JString "auths"]).

(** The cluster accepts the update and keeps its old pull secret. *)
Definition stale_cluster : World := with_stale cluster.

Definition kconfig : string := "/tmp/cluster-kubeconfig-2718281828".

(** The credential-merge step, and the whole installer, on a world. *)
Abbreviation merge_step w :=
  (addRHCEPHAuth decode "cluster" kconfig "xyz" w).

Abbreviation install cl w :=
  (main decode "kind: ImageContentSourcePolicy" "kind: CatalogSource" cl w).

End Sim.

(** Machines and command lines on which a run fails. *)
Module Faults.

(** [jq] is not installed. *)
Definition no_jq : Sim.World :=
  Sim.mkWorld "/work" "/tmp" ∅ ["oc"] [] false (Sim.secret Sim.cluster) false
    (Sim.registry_doc Sim.cluster) [] "2718281828".

(** The cluster refuses [oc set data]. *)
Definition read_only_secret : Sim.World := Sim.with_refused Sim.cluster ["set"].

(** The cluster refuses [oc apply]. *)
Definition no_apply : Sim.World := Sim.with_refused Sim.cluster ["apply"].

(** The [auths] field of the pull secret is [null]. *)
Definition null_auths : Sim.World :=
  Sim.with_secret Sim.cluster (JMap {[ "auths" := JNil ]}).


End Faults.

(** ** Symbolic execution of the process *)

#[local] Arguments getPullSecretCmd : simpl never.
#[local] Arguments registryLoginCmd : simpl never.
#[local] Arguments mergeCmd : simpl never.
#[local] Arguments updateCmd : simpl never.
#[local] Arguments loginCmd : simpl never.
#[local] Arguments applyCmd : simpl never.

(** Case analysis on the next call into the host. *)
Ltac host_step :=
  match goal with
  | |- context [exec_Run ?c ?s] =>
      let E := fresh "Hrun" in
      destruct (exec_Run c s) as [[?out|?err] ?s] eqn:E
  | |- context [os_write ?n ?d ?s] =>
      let E := fresh "Hwrite" in
      destruct (os_write n d s) as [[[]|?err] ?s] eqn:E
  | |- context [os_create_in ?d ?p ?s] =>
      let E := fresh "Hcreate" in
      destruct (os_create_in d p s) as [[?name|?err] ?s] eqn:E
  | |- context [exec_LookPath ?f ?s] =>
      let E := fresh "Hlook" in
      destruct (exec_LookPath f s) eqn:E
  end; cbn.

Ltac split_in :=
  repeat match goal with
  | H : _ \/ _ |- _ => destruct H
  | H : False |- _ => destruct H
  | H : In _ _ |- _ => cbn in H
  end.

Ltac in_list := cbn; repeat first [left; reflexivity | right].

Ltac unfold_hyp_cmds :=
  unfold getPullSecretCmd, registryLoginCmd, mergeCmd, updateCmd, loginCmd,
    applyCmd, set_Env, set_Stdio, exec_Command in * |-.

Ltac use_json :=
  unfold auths_of in * |-;
  repeat match goal with
  | H : json_Unmarshal _ ?d = _, H' : context [json_Unmarshal _ ?d] |- _ =>
      rewrite H in H'
  | H : assert_map ?v = _, H' : context [assert_map ?v] |- _ =>
      rewrite H in H'
  end.

Ltac run_auth :=
  unfold addRHCEPHAuth, try, Output, Run, os_WriteFile, host, bind, ret,
    fail, panic, slog_Info, emit; cbn.

(** A path of the run that ends here: the result, trace and final state
    are known, the statement is checked on them. *)
Ltac leaf :=
  solve [ intros [= <- <- <-]; cbn; repeat split; eauto; repeat intro;
          split_in; simplify_eq/=; eauto;
          unfold_hyp_cmds; simplify_eq/=; use_json; by simplify_eq/= ].

Ltac pick :=
  first [ solve [eauto 6] | left; solve [eauto 6] | right; pick ].

Ltac close_auth Hfin :=
  solve [ apply Hfin;
          [ done
          | repeat (constructor; [unfold auth_event; pick|]); constructor
          | try done; intros _; eexists; in_list ] ].

(** Evaluation on the simulated host. *)
Ltac sim_true := vm_compute; first [reflexivity | exact I | done].

(** A path of a step that ends here, checked for where its failed call
    is. *)
Ltac step_audit :=
  solve [ intros [= <- <- <-]; cbn; repeat split; try done; by intros [=] ].

(** A path of [addRHCEPHAuth] that ends with its call number [n]. *)
Ltac call_at n :=
  solve [ intros [= <- <- <-];
          unshelve (do 5 eexists; exists n; eexists; left;
                    split; [lia|split; [reflexivity|eexists; split;
                                                      [reflexivity|done]]]);
          exact EmptyString ].

(** * Properties *)

(** ** [strings.Split] and [getClusterName] *)

Lemma Split_nonempty s sep : strings.Split s sep ≠ [].
Proof.
  destruct s as [|c s]; simpl; [done|].
  case_decide; [done|]. by destruct (strings.Split s sep).
Qed.

(** One segment more than there are separators. *)
Lemma Split_length s sep :
  length (strings.Split s sep) = S (strings.Count s sep).
Proof.
  induction s as [|c s IH]; simpl; [done|].
  case_decide; simpl; [by rewrite IH|].
  pose proof (Split_nonempty s sep).
  destruct (strings.Split s sep); [done|]. by rewrite <- IH.
Qed.

(** Joining the segments gives the string back. *)
Lemma Split_Join s sep : strings.Join (strings.Split s sep) sep = s.
Proof.
  induction s as [|c s IH]; simpl; [done|].
  pose proof (Split_nonempty s sep) as Hne.
  case_decide; subst.
  - destruct (strings.Split s sep) eqn:E; [done|]. simpl in *. by rewrite IH.
  - destruct (strings.Split s sep) as [|p [|q ps]] eqn:E; [done| |].
    + simpl in *. by rewrite IH.
    + simpl in *. by rewrite <- IH.
Qed.

(** No segment contains the separator. *)
Lemma Split_no_sep s sep :
  Forall (fun p => strings.Count p sep = 0) (strings.Split s sep).
Proof.
  induction s as [|c s IH]; simpl.
  - by constructor.
  - case_decide.
    + by constructor.
    + destruct (strings.Split s sep) as [|p ps].
      * constructor; [|done]. simpl. by case_decide.
      * inversion IH; subst. constructor; [|done].
        simpl. by case_decide.
Qed.

Lemma getClusterName_cases url :
  getClusterName url =
    match strings.Split url dot with
    | _ :: p :: _ => Ok p
    | _ => Err "could not parse cluster name from URL"
    end.
Proof.
  unfold getClusterName.
  by destruct (strings.Split url dot) as [|a [|p ps]].
Qed.

(** [getClusterName] never panics: the index is guarded. *)
Lemma getClusterName_no_panic url :
  (exists c, getClusterName url = Ok c)
  \/ getClusterName url = Err "could not parse cluster name from URL".
Proof.
  rewrite getClusterName_cases.
  destruct (strings.Split url dot) as [|a [|p ps]]; eauto.
Qed.

(** C5. For every URL, [getClusterName] returns the second of the
    segments the URL splits into at its dots when there are at least two
    of them, and the parse error when there are fewer than two. *)
Theorem getClusterName_segments (url : string) (parts : list string) :
  strings.Split url dot = parts ->
  (2 <= length parts ->
     exists p, parts !! 1%nat = Some p /\ getClusterName url = Ok p)
  /\ (length parts < 2 ->
        getClusterName url = Err "could not parse cluster name from URL").
Proof.
  intros <-. rewrite getClusterName_cases.
  destruct (strings.Split url dot) as [|a [|p ps]]; simpl; split; intros;
    try lia; eauto.
Qed.

Lemma getClusterName_segments_witness :
  strings.Split "api.cluster.example.com:6443" dot
    = ["api"; "cluster"; "example"; "com:6443"]
  /\ getClusterName "api.cluster.example.com:6443" = Ok "cluster".
Proof.
  split; [reflexivity|].
  destruct (getClusterName_segments "api.cluster.example.com:6443"
              ["api"; "cluster"; "example"; "com:6443"] eq_refl) as [Hok _].
  destruct Hok as (p & Hp & ->).
  - simpl. lia.
  - by injection Hp as <-.
Defined.

(** A URL without a dot has one segment and is refused. *)
Example getClusterName_no_dot :
  getClusterName "localhost:6443" = Err "could not parse cluster name from URL".
Proof. reflexivity. Qed.

(** X3. The cluster name is what lies between the first and the second
    dot of the URL, whatever follows the second dot, and what follows the
    first dot when there is no second one. *)
Lemma getClusterName_between_dots (a b rest : string) :
  strings.Count a dot = 0 -> strings.Count b dot = 0 ->
  getClusterName (a +:+ String dot (b +:+ String dot rest)) = Ok b
  /\ getClusterName (a +:+ String dot b) = Ok b.
Proof.
  intros Ha Hb. rewrite !getClusterName_cases.
  assert (Hsplit : forall s, strings.Count s dot = 0 -> strings.Split s dot = [s]).
  { induction s as [|c s IH]; simpl; [done|].
    case_decide; [done|]. intros Hs. by rewrite IH. }
  assert (Happ : forall x y, strings.Count x dot = 0 ->
            strings.Split (x +:+ String dot y) dot = x :: strings.Split y dot).
  { induction x as [|c x IH]; simpl; intros y Hx.
    - done.
    - case_decide; [done|]. by rewrite IH. }
  rewrite !Happ by done. rewrite (Hsplit b Hb). split; [|done].
  pose proof (Split_nonempty rest dot). by destruct (strings.Split rest dot).
Qed.

Lemma assert_map_Some v m : assert_map v = Some m -> v = JMap m.
Proof. destruct v; simpl; congruence. Qed.

Section AuthFacts.

Context {Sys : Type} `{!Host Sys}.
Variable json_decode : bytes -> result any.

Lemma auths_of_Some data auths :
  auths_of json_decode data = Some auths ->
  exists doc, json_Unmarshal json_decode data = Success doc
            /\ index doc "auths" = JMap auths.
Proof.
  unfold auths_of. destruct (json_Unmarshal json_decode data); [|done].
  intros ?%assert_map_Some. eauto.
Qed.

(** C1. When the cluster's pull secret has an [auths] mapping without
    the key [quay.io/rhceph-dev], [addRHCEPHAuth] returns success only
    if the [auths] mapping of the merged document (the output of [jq])
    has exactly one entry more than the original one; and whenever the
    run gets through all its host calls with a merged document whose
    [auths] mapping has any other number of entries, it returns the
    count-mismatch error. *)
Theorem addRHCEPHAuth_count_check clusterName kconfig rhcephPassword s s1
    pullSecretOutput auths r t s' :
  exec_Run (getPullSecretCmd kconfig) s = (Success pullSecretOutput, s1) ->
  auths_of json_decode pullSecretOutput = Some auths ->
  auths !! "quay.io/rhceph-dev" = None ->
  addRHCEPHAuth json_decode clusterName kconfig rhcephPassword s = (r, t, s') ->
  (r = Ok tt ->
     exists mergedOutput newAuths,
       In (EvExec (mergeCmd (clusterName +:+ "-pull-secret.json")
                     (clusterName +:+ "-append-pull-secret.json"))
             (Success mergedOutput)) t
       /\ auths_of json_decode mergedOutput = Some newAuths
       /\ size newAuths = size auths + 1)
  /\ (forall mergedOutput newAuths,
       In (EvExec (mergeCmd (clusterName +:+ "-pull-secret.json")
                     (clusterName +:+ "-append-pull-secret.json"))
             (Success mergedOutput)) t ->
       forallb succeeded t = true ->
       auths_of json_decode mergedOutput = Some newAuths ->
       size newAuths ≠ size auths + 1 ->
       r = Err "pull secret does not contain the expected number of elements").
Proof.
  intros Hget (doc & Hdoc & Hauths)%auths_of_Some Hkey.
  run_auth. rewrite Hget; cbn.
  host_step; [|leaf].
  rewrite Hdoc; cbn. rewrite Hauths; cbn.
  unfold index at 1. rewrite Hkey; cbn.
  do 5 (host_step; [|leaf]).
  destruct (json_Unmarshal json_decode out0) as [newDoc|err] eqn:Hnew; cbn; [|leaf].
  destruct (assert_map (index newDoc "auths")) as [newAuths|] eqn:Hna; cbn; [|leaf].
  case_decide; cbn.
  - intros [= <- <- <-]; by split.
  - intros [= <- <- <-]; split.
    + intros _. exists out0, newAuths. split; [in_list|].
      unfold auths_of. rewrite Hnew. split; [done|lia].
    + intros m na Hin _ Hm Hsz. exfalso.
      split_in; unfold_hyp_cmds; simplify_eq/=.
      use_json. by simplify_eq.
Qed.

(** C4. When the document read from the cluster is not JSON, is not a
    JSON mapping, or has no [auths] field that is a mapping,
    [addRHCEPHAuth] fails; once the snapshot of the document is
    written the error is the parse error or the format error; and the
    only command the run executes is the read of the secret: the
    registry login is never invoked. *)
Theorem addRHCEPHAuth_malformed clusterName kconfig rhcephPassword s s1
    pullSecretOutput r t s' :
  exec_Run (getPullSecretCmd kconfig) s = (Success pullSecretOutput, s1) ->
  malformed json_decode pullSecretOutput ->
  addRHCEPHAuth json_decode clusterName kconfig rhcephPassword s = (r, t, s') ->
  (exists e, r = Err e)
  /\ (forallb succeeded t = true ->
        (exists err, r = Err ("error parsing pull secret JSON: " +:+ err))
        \/ r = Err "invalid pull secret format")
  /\ (forall c res, In (EvExec c res) t -> c = getPullSecretCmd kconfig)
  /\ (forall res,
        ~ In (EvExec (registryLoginCmd (clusterName +:+ "-append-pull-secret.json")
                        kconfig rhcephPassword) res) t).
Proof.
  intros Hget Hbad. unfold malformed in Hbad.
  run_auth. rewrite Hget; cbn.
  host_step; [|leaf].
  unfold json_Unmarshal.
  destruct (json_decode pullSecretOutput) as [[| | | | |doc]|err]; cbn;
    try leaf.
  - unfold index. rewrite lookup_empty; cbn. leaf.
  - unfold index.
    destruct (doc !! "auths") as [[| | | | |auths]|]; cbn; try done; leaf.
Qed.

Lemma index_present (m : gmap string any) k v :
  m !! k = Some v -> index m k = v.
Proof. unfold index. by intros ->. Qed.

(** C3, as the code has it. When the [auths] mapping of the cluster's
    pull secret binds [quay.io/rhceph-dev] to a value that is not JSON
    [null], the only command [addRHCEPHAuth] executes is the read of
    the secret (no registry login, no merge, no write to the cluster),
    and once the snapshot of the document is written the run returns
    success right after logging that the credential already exists. *)
Theorem addRHCEPHAuth_noop_when_present clusterName kconfig rhcephPassword
    s s1 pullSecretOutput auths v r t s' :
  exec_Run (getPullSecretCmd kconfig) s = (Success pullSecretOutput, s1) ->
  auths_of json_decode pullSecretOutput = Some auths ->
  auths !! "quay.io/rhceph-dev" = Some v ->
  v ≠ JNil ->
  addRHCEPHAuth json_decode clusterName kconfig rhcephPassword s = (r, t, s') ->
  (forall c res, In (EvExec c res) t -> c = getPullSecretCmd kconfig)
  /\ (forallb succeeded t = true ->
        r = Ok tt
        /\ t = [ EvExec (getPullSecretCmd kconfig) (Success pullSecretOutput);
                 EvWriteFile (clusterName +:+ "-pull-secret.json")
                   pullSecretOutput (Success tt);
                 EvLog INFO "RHCEPH auth already exists in pull secret" [] ]).
Proof.
  intros Hget (doc & Hdoc & Hauths)%auths_of_Some Hkey Hv.
  run_auth. rewrite Hget; cbn.
  host_step; [|leaf].
  rewrite Hdoc; cbn. rewrite Hauths; cbn.
  rewrite (index_present _ _ _ Hkey).
  destruct v; try done; cbn; leaf.
Qed.

(** C10. When the [auths] mapping binds [quay.io/rhceph-dev] to JSON
    [null], the already-present check does not fire: the run never
    logs that the credential exists, and once the snapshot is written
    its next host call is the registry login, followed, when that
    succeeds, by the [jq] merge. *)
Theorem addRHCEPHAuth_null_entry_proceeds clusterName kconfig rhcephPassword
    s s1 s2 pullSecretOutput auths r t s' :
  exec_Run (getPullSecretCmd kconfig) s = (Success pullSecretOutput, s1) ->
  auths_of json_decode pullSecretOutput = Some auths ->
  auths !! "quay.io/rhceph-dev" = Some JNil ->
  os_write (clusterName +:+ "-pull-secret.json") pullSecretOutput s1
    = (Success tt, s2) ->
  addRHCEPHAuth json_decode clusterName kconfig rhcephPassword s = (r, t, s') ->
  ~ In (EvLog INFO "RHCEPH auth already exists in pull secret" []) t
  /\ exists res,
       t !! 2%nat
         = Some (EvExec (registryLoginCmd (clusterName +:+ "-append-pull-secret.json")
                           kconfig rhcephPassword) res)
       /\ (forall out, res = Success out ->
             exists res',
               t !! 3%nat
                 = Some (EvExec (mergeCmd (clusterName +:+ "-pull-secret.json")
                                   (clusterName +:+ "-append-pull-secret.json"))
                           res')).
Proof.
  intros Hget (doc & Hdoc & Hauths)%auths_of_Some Hkey Hwrite.
  run_auth. rewrite Hget; cbn. rewrite Hwrite; cbn.
  rewrite Hdoc; cbn. rewrite Hauths; cbn.
  rewrite (index_present _ _ _ Hkey); cbn.
  assert (Hleaf : forall r0 res t0 (s0 : Sys),
    (forall out, res = Success out ->
       exists res', t0 !! 0%nat
         = Some (EvExec (mergeCmd (clusterName +:+ "-pull-secret.json")
                           (clusterName +:+ "-append-pull-secret.json")) res')) ->
    ~ In (EvLog INFO "RHCEPH auth already exists in pull secret" []) t0 ->
    (r0, EvExec (getPullSecretCmd kconfig) (Success pullSecretOutput)
         :: EvWriteFile (clusterName +:+ "-pull-secret.json") pullSecretOutput
              (Success tt)
         :: EvExec (registryLoginCmd (clusterName +:+ "-append-pull-secret.json")
                      kconfig rhcephPassword) res :: t0, s0) = (r, t, s') ->
    ~ In (EvLog INFO "RHCEPH auth already exists in pull secret" []) t
    /\ exists res,
         t !! 2%nat
           = Some (EvExec (registryLoginCmd (clusterName +:+ "-append-pull-secret.json")
                             kconfig rhcephPassword) res)
         /\ (forall out, res = Success out ->
               exists res',
                 t !! 3%nat
                   = Some (EvExec (mergeCmd (clusterName +:+ "-pull-secret.json")
                                     (clusterName +:+ "-append-pull-secret.json"))
                             res'))).
  { intros r0 res t0 s0 Hnext Hlog [= <- <- <-]. split.
    - intros Hin. split_in; simplify_eq/=. by apply Hlog.
    - exists res. split; [done|]. exact Hnext. }
  host_step; [|apply Hleaf; [done|intros []]].
  host_step;
    [|apply Hleaf; [eauto|intros Hin; split_in; simplify_eq/=]].
  do 3 (host_step;
    [|apply Hleaf; [eauto|intros Hin; split_in; simplify_eq/=]]).
  destruct (json_Unmarshal json_decode out0) as [newDoc|err] eqn:Hnew; cbn;
    [|apply Hleaf; [eauto|intros Hin; split_in; simplify_eq/=]].
  destruct (assert_map (index newDoc "auths")) as [newAuths|] eqn:Hna; cbn;
    [|apply Hleaf; [eauto|intros Hin; split_in; simplify_eq/=]].
  case_decide; cbn;
    (apply Hleaf; [eauto|intros Hin; split_in; simplify_eq/=]).
Qed.

(** C9. After a successful push of the merged document the run reads
    the live secret again, and that read is its last host call; but
    the verdict of a run that got that far is a function of the merged
    document [jq] printed and of the entry count taken before the
    merge only: whatever the second read returns, the run succeeds
    exactly when the merged document has one entry more, and reports a
    count mismatch exactly when it has an [auths] mapping of another
    size. *)
Theorem addRHCEPHAuth_verdict_from_merged clusterName kconfig rhcephPassword
    s s1 pullSecretOutput auths r t s' :
  exec_Run (getPullSecretCmd kconfig) s = (Success pullSecretOutput, s1) ->
  auths_of json_decode pullSecretOutput = Some auths ->
  addRHCEPHAuth json_decode clusterName kconfig rhcephPassword s = (r, t, s') ->
  (forall pushed,
     In (EvExec (updateCmd (clusterName +:+ "-new-pull-secret.json") kconfig)
           (Success pushed)) t ->
     exists res, last t = Some (EvExec (getPullSecretCmd kconfig) res))
  /\ (forall reread,
        last t = Some (EvExec (getPullSecretCmd kconfig) (Success reread)) ->
        exists mergedOutput,
          In (EvExec (mergeCmd (clusterName +:+ "-pull-secret.json")
                        (clusterName +:+ "-append-pull-secret.json"))
                (Success mergedOutput)) t
          /\ match auths_of json_decode mergedOutput with
             | Some newAuths =>
                 if decide (size newAuths = size auths + 1) then r = Ok tt
                 else r = Err "pull secret does not contain the expected number of elements"
             | None => exists e, r = Err e
             end).
Proof.
  intros Hget (doc & Hdoc & Hauths)%auths_of_Some.
  run_auth. rewrite Hget; cbn.
  host_step; [|leaf].
  rewrite Hdoc; cbn. rewrite Hauths; cbn.
  destruct (is_nil (index auths "quay.io/rhceph-dev")); cbn; [|leaf].
  do 4 (host_step; [|leaf]).
  host_step; [|leaf].
  intros Hrun'. split.
  { intros pushed _. revert Hrun'.
    destruct (json_Unmarshal json_decode out0) as [newDoc|err]; cbn;
      [|intros [= <- <- <-]; cbn; eauto].
    destruct (assert_map (index newDoc "auths")) as [newAuths|]; cbn;
      [|intros [= <- <- <-]; cbn; eauto].
    case_decide; cbn; intros [= <- <- <-]; cbn; eauto. }
  intros reread Hlast. exists out0. revert Hrun' Hlast. unfold auths_of.
  destruct (json_Unmarshal json_decode out0) as [newDoc|err]; cbn;
    [|intros [= <- <- <-] _; split; [in_list|eauto]].
  destruct (assert_map (index newDoc "auths")) as [newAuths|]; cbn;
    [|intros [= <- <- <-] _; split; [in_list|eauto]].
  repeat case_decide; try lia; cbn; intros [= <- <- <-] _; (split; [in_list|done]).
Qed.

(** C2, as the code has it. The merged document is pushed to the
    cluster before its entries are counted: a run that returns the
    count-mismatch error has already written the merged document to
    [<cluster>-new-pull-secret.json] and replaced the cluster's pull
    secret with it, successfully.  What does hold is that the push
    comes only after [jq] has produced the merged document and that
    document has been stored. *)
Theorem addRHCEPHAuth_push_before_check clusterName kconfig rhcephPassword
    s r t s' :
  addRHCEPHAuth json_decode clusterName kconfig rhcephPassword s = (r, t, s') ->
  (r = Err "pull secret does not contain the expected number of elements" ->
     exists mergedOutput pushed,
       In (EvWriteFile (clusterName +:+ "-new-pull-secret.json") mergedOutput
             (Success tt)) t
       /\ In (EvExec (updateCmd (clusterName +:+ "-new-pull-secret.json") kconfig)
                (Success pushed)) t)
  /\ (forall res,
        In (EvExec (updateCmd (clusterName +:+ "-new-pull-secret.json") kconfig)
              res) t ->
        exists mergedOutput,
          In (EvExec (mergeCmd (clusterName +:+ "-pull-secret.json")
                        (clusterName +:+ "-append-pull-secret.json"))
                (Success mergedOutput)) t
          /\ In (EvWriteFile (clusterName +:+ "-new-pull-secret.json")
                   mergedOutput (Success tt)) t).
Proof.
  run_auth.
  host_step; [|leaf].
  host_step; [|leaf].
  destruct (json_Unmarshal json_decode out) as [doc|err]; cbn; [|leaf].
  destruct (assert_map (index doc "auths")) as [auths|]; cbn; [|leaf].
  destruct (is_nil (index doc "auths")); cbn; [leaf|].
  destruct (is_nil (index auths "quay.io/rhceph-dev")); cbn; [|leaf].
  do 3 (host_step; [|leaf]).
  host_step.
  2:{ intros [= <- <- <-]; cbn. split; [intros ?; by simplify_eq/=|].
      intros res _. exists out1. split; in_list. }
  assert (Hfin : forall (x : outcome unit * list Event * Sys),
    x = (r, t, s') ->
    (exists t0, x.1.2 =
       EvExec (getPullSecretCmd kconfig) (Success out)
       :: EvWriteFile (clusterName +:+ "-pull-secret.json") out (Success tt)
       :: EvExec (registryLoginCmd (clusterName +:+ "-append-pull-secret.json")
                    kconfig rhcephPassword) (Success out0)
       :: EvExec (mergeCmd (clusterName +:+ "-pull-secret.json")
                    (clusterName +:+ "-append-pull-secret.json")) (Success out1)
       :: EvWriteFile (clusterName +:+ "-new-pull-secret.json") out1 (Success tt)
       :: EvExec (updateCmd (clusterName +:+ "-new-pull-secret.json") kconfig)
            (Success out2) :: t0) ->
    (r = Err "pull secret does not contain the expected number of elements" ->
       exists mergedOutput pushed,
         In (EvWriteFile (clusterName +:+ "-new-pull-secret.json") mergedOutput
               (Success tt)) t
         /\ In (EvExec (updateCmd (clusterName +:+ "-new-pull-secret.json") kconfig)
                  (Success pushed)) t)
    /\ (forall res,
          In (EvExec (updateCmd (clusterName +:+ "-new-pull-secret.json") kconfig)
                res) t ->
          exists mergedOutput,
            In (EvExec (mergeCmd (clusterName +:+ "-pull-secret.json")
                          (clusterName +:+ "-append-pull-secret.json"))
                  (Success mergedOutput)) t
            /\ In (EvWriteFile (clusterName +:+ "-new-pull-secret.json")
                     mergedOutput (Success tt)) t)).
  { intros x -> [t0 Ht]. cbn in Ht. subst t. split.
    - intros _. exists out1, out2. split; in_list.
    - intros res _. exists out1. split; in_list. }
  host_step.
  - destruct (json_Unmarshal json_decode out1) as [newDoc|err]; cbn.
    + destruct (assert_map (index newDoc "auths")) as [newAuths|]; cbn.
      * case_decide; cbn; intros Heq; apply (Hfin _ Heq); cbn; eauto.
      * intros Heq; apply (Hfin _ Heq); cbn; eauto.
    + intros Heq; apply (Hfin _ Heq); cbn; eauto.
  - intros Heq; apply (Hfin _ Heq); cbn; eauto.
Qed.

End AuthFacts.

(** ** The steps of [main] *)

Section MainFacts.

Context {Sys : Type} `{!Host Sys}.
Variable json_decode : bytes -> result any.
Variable icspYAML : string.
Variable odfCatalogSourceYAML : string.

Lemma or_exit_run {A} (m : M A) msg (s : Sys) :
  or_exit m msg s =
    match m s with
    | (Ok a, t, s1) => (Ok a, t, s1)
    | (Err e, t, s1) => (Exit 1, (t ++ [EvLog ERROR msg [("error", e)]])%list, s1)
    | (Panic p, t, s1) => (Panic p, t, s1)
    | (Exit code, t, s1) => (Exit code, t, s1)
    end.
Proof.
  unfold or_exit, bind, catch, slog_Error, emit, os_Exit, ret.
  destruct (m s) as [[[] t] s1]; cbn; by rewrite ?app_nil_r.
Qed.

Lemma checkRequiredCommands_run (s : Sys) r t s' :
  checkRequiredCommands s = (r, t, s') ->
  s' = s /\ returns r
  /\ Forall (fun e => exists f b, e = EvLookPath f b) t.
Proof.
  unfold checkRequiredCommands, for_range, checkCommandExists,
    exec_LookPath', bind, ret, fail; cbn.
  do 2 (host_step; [|intros [= <- <- <-]; repeat split; eauto 10]).
  intros [= <- <- <-]; repeat split; eauto 10.
Qed.

Lemma getKubeconfig_run c (s : Sys) r t s' :
  getKubeconfig c s = (r, t, s') ->
  returns r
  /\ (forall k, r = Ok k ->
        t = [EvCreateTemp (os_TempDir s) (c +:+ "-kubeconfig" +:+ "-*") (Success k);
             EvClose k])
  /\ Forall (fun e => (exists k, e = EvClose k)
               \/ exists res, e = EvCreateTemp (os_TempDir s)
                                    (c +:+ "-kubeconfig" +:+ "-*") res) t.
Proof.
  unfold getKubeconfig, try, os_CreateTemp, host, bind, ret, fail, emit; cbn.
  host_step; intros [= <- <- <-]; repeat split; intros; simplify_eq;
    eauto 10.
Qed.

Lemma login_run url username password k (s : Sys) r t s' :
  login url username password k s = (r, t, s') ->
  returns r
  /\ Forall (fun e => (exists l m a, e = EvLog l m a)
               \/ exists res, e = EvExec (loginCmd url username password k) res) t.
Proof.
  unfold login, try, Run, host, bind, ret, fail, slog_Info, emit; cbn.
  host_step; intros [= <- <- <-]; repeat split; eauto 10.
Qed.

Lemma addICSP_run c k (s : Sys) r t s' :
  addICSP icspYAML c k s = (r, t, s') ->
  returns r
  /\ (r = Ok tt ->
        exists out, t = [EvWriteFile (c +:+ "-icsp.yaml") icspYAML (Success tt);
                         EvExec (applyCmd (c +:+ "-icsp.yaml") k) (Success out)])
  /\ Forall (fun e => (exists res, e = EvWriteFile (c +:+ "-icsp.yaml") icspYAML res)
               \/ exists res, e = EvExec (applyCmd (c +:+ "-icsp.yaml") k) res) t.
Proof.
  unfold addICSP, try, Run, os_WriteFile, host, bind, ret, fail; cbn.
  host_step; [host_step|]; intros [= <- <- <-]; repeat split; intros;
    simplify_eq; eauto 10.
Qed.

Lemma addCatalogSource_run c k yaml (s : Sys) r t s' :
  addCatalogSource c k yaml s = (r, t, s') ->
  returns r
  /\ (r = Ok tt ->
        exists out, t = [EvWriteFile (c +:+ "-catalogsource.yaml") yaml (Success tt);
                         EvExec (applyCmd (c +:+ "-catalogsource.yaml") k) (Success out)])
  /\ Forall (fun e => (exists res, e = EvWriteFile (c +:+ "-catalogsource.yaml") yaml res)
               \/ exists res, e = EvExec (applyCmd (c +:+ "-catalogsource.yaml") k) res) t.
Proof.
  unfold addCatalogSource, try, Run, os_WriteFile, host, bind, ret, fail; cbn.
  host_step; [host_step|]; intros [= <- <- <-]; repeat split; intros;
    simplify_eq; eauto 10.
Qed.

Lemma addRHCEPHAuth_run c k pw (s : Sys) r t s' :
  addRHCEPHAuth json_decode c k pw s = (r, t, s') ->
  returns r
  /\ (r = Ok tt ->
        exists d, In (EvWriteFile (c +:+ "-pull-secret.json") d (Success tt)) t)
  /\ Forall (auth_event c k pw) t.
Proof.
  assert (Hfin : forall r0 t0 (s0 : Sys),
    returns r0 -> Forall (auth_event c k pw) t0 ->
    (r0 = Ok tt ->
       exists d, In (EvWriteFile (c +:+ "-pull-secret.json") d (Success tt)) t0) ->
    (r0, t0, s0) = (r, t, s') ->
    returns r
    /\ (r = Ok tt ->
          exists d, In (EvWriteFile (c +:+ "-pull-secret.json") d (Success tt)) t)
    /\ Forall (auth_event c k pw) t).
  { by intros r0 t0 s0 ??? [= <- <- <-]. }
  assert (Hev : forall e l, auth_event c k pw e ->
            Forall (auth_event c k pw) l -> Forall (auth_event c k pw) (e :: l))
    by (by constructor).
  run_auth.
  host_step; [|close_auth Hfin].
  host_step; [|close_auth Hfin].
  destruct (json_Unmarshal json_decode out) as [doc|err']; cbn; [|close_auth Hfin].
  destruct (assert_map (index doc "auths")) as [auths|]; cbn; [|close_auth Hfin].
  destruct (is_nil (index doc "auths")); cbn; [close_auth Hfin|].
  destruct (is_nil (index auths "quay.io/rhceph-dev")); cbn; [|close_auth Hfin].
  do 5 (host_step; [|close_auth Hfin]).
  destruct (json_Unmarshal json_decode out1) as [newDoc|err']; cbn; [|close_auth Hfin].
  destruct (assert_map (index newDoc "auths")) as [newAuths|]; cbn; [|close_auth Hfin].
  case_decide; cbn; close_auth Hfin.
Qed.


Lemma bind_assoc {A B C} (m : M A) (f : A -> M B) (g : B -> M C) (s : Sys) :
  bind (bind m f) g s = bind m (fun a => bind (f a) g) s.
Proof.
  unfold bind. destruct (m s) as [[[a| | |] t1] s1]; try done.
  destruct (f a s1) as [[[b| | |] t2] s2]; try done.
  destruct (g b s2) as [[r t3] s3]. by rewrite app_assoc.
Qed.

Lemma bind_ext {A B} (m : M A) (f g : A -> M B) (s : Sys) :
  (forall a s1, f a s1 = g a s1) -> bind m f s = bind m g s.
Proof.
  intros Hfg. unfold bind. destruct (m s) as [[[a| | |] t1] s1]; try done.
  by rewrite Hfg.
Qed.

Lemma ret_bind {A B} (a : A) (f : A -> M B) (s : Sys) :
  bind (ret a) f s = f a s.
Proof. unfold bind, ret. by destruct (f a s) as [[r t] s1]. Qed.

Lemma bind_ret_tt (m : M unit) (s : Sys) :
  bind m (fun _ => ret tt) s = m s.
Proof.
  unfold bind, ret. destruct (m s) as [[[[]| | |] t1] s1]; try done.
  by rewrite app_nil_r.
Qed.

Lemma fail_fast_cons step msg rest (s : Sys) :
  fail_fast ((step, msg) :: rest) s
  = bind (or_exit step msg) (fun _ => fail_fast rest) s.
Proof.
  unfold bind. rewrite or_exit_run. cbn.
  by destruct (step s) as [[[[]| | |] t1] s1].
Qed.

Lemma main_decompose cl (s : Sys) :
  urlFlag cl ≠ "" -> passwordFlag cl ≠ "" -> rhcephPasswordFlag cl ≠ "" ->
  main json_decode icspYAML odfCatalogSourceYAML cl s =
    bind (preflight (urlFlag cl))
      (fun ck => fail_fast
         (steps json_decode icspYAML odfCatalogSourceYAML
            (urlFlag cl) (usernameFlag cl) (passwordFlag cl)
            (rhcephPasswordFlag cl) ck.1 ck.2)) s.
Proof.
  intros Hurl Hpw Hrh.
  unfold main. repeat case_decide; try done.
  rewrite !ret_bind.
  unfold preflight, steps.
  do 3 (rewrite bind_assoc; apply bind_ext; intros ? ?).
  rewrite ret_bind. cbn [fst snd].
  do 3 (rewrite fail_fast_cons; apply bind_ext; intros ? ?).
  rewrite fail_fast_cons. by rewrite bind_ret_tt.
Qed.

Lemma preflight_run url (s : Sys) r t s' :
  preflight url s = (r, t, s') ->
  Forall (fun e =>
            match e with
            | EvLookPath _ _ | EvLog _ _ _ | EvClose _ => True
            | EvCreateTemp d p _ =>
                d = os_TempDir s
                /\ exists c, getClusterName url = Ok c
                             /\ p = c +:+ "-kubeconfig" +:+ "-*"
            | _ => False
            end) t
  /\ (r = Exit 1
      \/ exists c k,
           r = Ok (c, k) /\ getClusterName url = Ok c
           /\ In (EvCreateTemp (os_TempDir s) (c +:+ "-kubeconfig" +:+ "-*")
                    (Success k)) t).
Proof.
  unfold preflight, or_exit, catch, checkRequiredCommands, for_range,
    checkCommandExists, exec_LookPath', getKubeconfig, try, os_CreateTemp,
    host, lift, slog_Error, os_Exit, emit, bind, ret, fail; cbn.
  do 2 (host_step; [|intros [= <- <- <-]; split; [repeat constructor|by left]]).
  destruct (getClusterName_no_panic url) as [[c Hc]|Hc]; rewrite Hc; cbn;
    [|intros [= <- <- <-]; split; [repeat constructor|by left]].
  host_step; intros [= <- <- <-]; (split; [repeat constructor; eauto|]).
  - right. exists c, name. repeat split; in_list.
  - by left.
Qed.


(** The run of the four steps, spelled out: each step starts in the
    state the one before left, the first error ends the process with
    status 1 after one log line, and the process goes on to its normal
    end only past four successes. *)
Lemma steps_run url username password rhcephPassword c k (s0 : Sys) r t s' :
  fail_fast (steps json_decode icspYAML odfCatalogSourceYAML
               url username password rhcephPassword c k) s0 = (r, t, s') ->
  exists r1 t1 s1,
    login url username password k s0 = (r1, t1, s1) /\
    match r1 with
    | Ok _ =>
        exists r2 t2 s2,
          addRHCEPHAuth json_decode c k rhcephPassword s1 = (r2, t2, s2) /\
          match r2 with
          | Ok _ =>
              exists r3 t3 s3,
                addICSP icspYAML c k s2 = (r3, t3, s3) /\
                match r3 with
                | Ok _ =>
                    exists r4 t4,
                      addCatalogSource c k odfCatalogSourceYAML s3 = (r4, t4, s') /\
                      match r4 with
                      | Ok _ => r = Ok tt /\ t = (t1 ++ t2 ++ t3 ++ t4)%list
                      | Err e =>
                          r = Exit 1 /\
                          t = (t1 ++ t2 ++ t3 ++ t4 ++
                               [EvLog ERROR "error adding CatalogSource" [("error", e)]])%list
                      | _ => False
                      end
                | Err e =>
                    r = Exit 1 /\ s' = s3 /\
                    t = (t1 ++ t2 ++ t3 ++
                         [EvLog ERROR "error adding ICSP" [("error", e)]])%list
                | _ => False
                end
          | Err e =>
              r = Exit 1 /\ s' = s2 /\
              t = (t1 ++ t2 ++
                   [EvLog ERROR "error adding RHCEPH auth to pull secret"
                      [("error", e)]])%list
          | _ => False
          end
    | Err e =>
        r = Exit 1 /\ s' = s1 /\
        t = (t1 ++ [EvLog ERROR "error logging into OpenShift" [("error", e)]])%list
    | _ => False
    end.
Proof.
  unfold steps. cbn [fail_fast]. intros Hff.
  destruct (login url username password k s0) as [[r1 t1] s1] eqn:E1.
  pose proof E1 as [R1 _]%login_run.
  exists r1, t1, s1. split; [done|].
  destruct r1 as [[]| | |]; try done; [|by simplify_eq].
  destruct (addRHCEPHAuth json_decode c k rhcephPassword s1) as [[r2 t2] s2] eqn:E2.
  pose proof E2 as [R2 _]%addRHCEPHAuth_run.
  exists r2, t2, s2. split; [done|].
  destruct r2 as [[]| | |]; try done;
    [|simplify_eq; by rewrite <- ?app_assoc].
  destruct (addICSP icspYAML c k s2) as [[r3 t3] s3] eqn:E3.
  pose proof E3 as [R3 _]%addICSP_run.
  exists r3, t3, s3. split; [done|].
  destruct r3 as [[]| | |]; try done;
    [|simplify_eq; by rewrite <- ?app_assoc].
  destruct (addCatalogSource c k odfCatalogSourceYAML s3) as [[r4 t4] s4] eqn:E4.
  pose proof E4 as [R4 _]%addCatalogSource_run.
  destruct r4 as [[]| | |]; try done; cbn [ret] in Hff; simplify_eq;
    eexists _, t4; (split; [done|]); cbn; by rewrite <- ?app_assoc, ?app_nil_r.
Qed.


(** *** Order of events *)

Lemma preceded_by_none (P Q : Event -> Prop) t :
  Forall (fun e => ~ Q e) t -> preceded_by P Q t.
Proof.
  intros Hall t1 e t2 -> HQ.
  apply Forall_app in Hall as [_ Hall].
  apply Forall_cons in Hall as [Hall _]. by destruct Hall.
Qed.

Lemma preceded_by_app (P Q : Event -> Prop) a b :
  Forall (fun e => ~ Q e) a -> Exists P a -> preceded_by P Q (a ++ b).
Proof.
  intros Hall Hex t1 e t2 Heq HQ.
  apply app_eq_app in Heq as [l [[-> Hb]|[-> Ha]]].
  - destruct l as [|e' l]; simpl in Hb.
    + by rewrite app_nil_r in Hex.
    + injection Hb as <- _.
      apply Forall_app in Hall as [_ Hall].
      apply Forall_cons in Hall as [Hall _]. by destruct Hall.
  - apply Exists_app. by left.
Qed.

Lemma not_catalog_login url username password k c k' e :
  (exists l m a, e = EvLog l m a)
  \/ (exists res, e = EvExec (loginCmd url username password k) res) ->
  ~ catalog_apply c k' e.
Proof.
  intros [(?&?&?&->)|(?&->)] [res Heq]; unfold_hyp_cmds; simplify_eq.
Qed.

Lemma not_catalog_auth c k pw c' k' e :
  auth_event c k pw e -> ~ catalog_apply c' k' e.
Proof.
  unfold auth_event. intros He [res Heq]. subst e.
  destruct He as [He|[He|[He|[He|[He|[He|He]]]]]];
    repeat match goal with H : exists _, _ |- _ => destruct H end;
    unfold_hyp_cmds; simplify_eq.
Qed.

Lemma not_catalog_icsp c k k' e :
  (exists res, e = EvWriteFile (c +:+ "-icsp.yaml") icspYAML res)
  \/ (exists res, e = EvExec (applyCmd (c +:+ "-icsp.yaml") k) res) ->
  ~ catalog_apply c k' e.
Proof.
  intros [(?&->)|(?&->)] [res Heq]; unfold_hyp_cmds; simplify_eq.
Qed.

Lemma steps_status url username password rhcephPassword c k (s0 : Sys) r t s' :
  fail_fast (steps json_decode icspYAML odfCatalogSourceYAML
               url username password rhcephPassword c k) s0 = (r, t, s') ->
  r = Ok tt \/ r = Exit 1.
Proof.
  intros (r1 & t1 & s1 & _ & H1)%steps_run.
  destruct r1 as [[]| | |]; try done; [|right; by destruct H1].
  destruct H1 as (r2 & t2 & s2 & _ & H2).
  destruct r2 as [[]| | |]; try done; [|right; by destruct H2].
  destruct H2 as (r3 & t3 & s3 & _ & H3).
  destruct r3 as [[]| | |]; try done; [|right; by destruct H3].
  destruct H3 as (r4 & t4 & _ & H4).
  destruct r4 as [[]| | |]; try done; destruct H4; auto.
Qed.

Lemma steps_success url username password rhcephPassword c k (s0 : Sys) t s' :
  fail_fast (steps json_decode icspYAML odfCatalogSourceYAML
               url username password rhcephPassword c k) s0 = (Ok tt, t, s') ->
  exists t1 s1 t2 s2 t3 s3 t4,
    login url username password k s0 = (Ok tt, t1, s1)
    /\ addRHCEPHAuth json_decode c k rhcephPassword s1 = (Ok tt, t2, s2)
    /\ addICSP icspYAML c k s2 = (Ok tt, t3, s3)
    /\ addCatalogSource c k odfCatalogSourceYAML s3 = (Ok tt, t4, s')
    /\ t = (t1 ++ t2 ++ t3 ++ t4)%list.
Proof.
  intros (r1 & t1 & s1 & E1 & H1)%steps_run.
  destruct r1 as [[]| | |]; try done; [|by destruct H1].
  destruct H1 as (r2 & t2 & s2 & E2 & H2).
  destruct r2 as [[]| | |]; try done; [|by destruct H2].
  destruct H2 as (r3 & t3 & s3 & E3 & H3).
  destruct r3 as [[]| | |]; try done; [|by destruct H3].
  destruct H3 as (r4 & t4 & E4 & H4).
  destruct r4 as [[]| | |]; try done; [|by destruct H4].
  destruct H4 as [_ ->]. by exists t1, s1, t2, s2, t3, s3, t4.
Qed.

Lemma steps_order url username password rhcephPassword c k (s0 : Sys) r t s' t0 :
  fail_fast (steps json_decode icspYAML odfCatalogSourceYAML
               url username password rhcephPassword c k) s0 = (r, t, s') ->
  Forall (fun e => ~ catalog_apply c k e) t0 ->
  preceded_by (icsp_applied c k) (catalog_apply c k) (t0 ++ t).
Proof.
  intros (r1 & t1 & s1 & E1 & H1)%steps_run H0.
  assert (Hlog : forall l m a, ~ catalog_apply c k (EvLog l m a))
    by (by intros l m a [res ?]).
  pose proof E1 as (_ & A1)%login_run.
  eapply Forall_impl in A1; [|apply (not_catalog_login _ _ _ _ c k)].
  destruct r1 as [[]| | |]; try done.
  2:{ destruct H1 as (_ & _ & ->). apply preceded_by_none.
      rewrite !Forall_app. repeat split; try done. repeat constructor. apply Hlog. }
  destruct H1 as (r2 & t2 & s2 & E2 & H2).
  pose proof E2 as (_ & _ & A2)%addRHCEPHAuth_run.
  eapply Forall_impl in A2; [|apply (not_catalog_auth _ _ _ c k)].
  destruct r2 as [[]| | |]; try done.
  2:{ destruct H2 as (_ & _ & ->). apply preceded_by_none.
      rewrite !Forall_app. repeat split; try done. repeat constructor. apply Hlog. }
  destruct H2 as (r3 & t3 & s3 & E3 & H3).
  pose proof E3 as (_ & O3 & A3)%addICSP_run.
  eapply Forall_impl in A3; [|apply (not_catalog_icsp _ _ k)].
  destruct r3 as [[]| | |]; try done.
  2:{ destruct H3 as (_ & _ & ->). apply preceded_by_none.
      rewrite !Forall_app. repeat split; try done. repeat constructor. apply Hlog. }
  destruct H3 as (r4 & t4 & E4 & H4).
  destruct (O3 eq_refl) as [out Ht3].
  assert (Hpre : forall rest,
    preceded_by (icsp_applied c k) (catalog_apply c k)
      (t0 ++ t1 ++ t2 ++ t3 ++ rest)).
  { intros rest.
    replace (t0 ++ t1 ++ t2 ++ t3 ++ rest)%list
      with ((t0 ++ t1 ++ t2 ++ t3) ++ rest)%list
      by (by rewrite <- !app_assoc).
    apply preceded_by_app.
    - by rewrite !Forall_app.
    - rewrite !Exists_app. do 3 right. subst t3.
      apply Exists_cons_tl, Exists_cons_hd. by exists out. }
  destruct r4 as [[]| | |]; try done; destruct H4 as [_ ->]; apply Hpre.
Qed.


(** *** Scratch files *)

Lemma scratch_login tmp c url username password k e :
  (exists l m a, e = EvLog l m a)
  \/ (exists res, e = EvExec (loginCmd url username password k) res) ->
  scratch_ok tmp c e.
Proof.
  intros [(?&?&?&->)|(?&->)]; cbn; [done|].
  intros f k' pw Heq. unfold_hyp_cmds. simplify_eq.
Qed.

Lemma scratch_auth tmp c k pw e : auth_event c k pw e -> scratch_ok tmp c e.
Proof.
  unfold auth_event.
  intros [He|[He|[He|[He|[He|[He|He]]]]]];
    repeat match goal with H : exists _, _ |- _ => destruct H end; subst e; cbn;
    try done; try in_list; intros f k' pw' Heq; unfold_hyp_cmds; by simplify_eq.
Qed.

Lemma scratch_apply tmp c name yaml k e :
  In name (scratch_names c) ->
  (exists res, e = EvWriteFile name yaml res)
  \/ (exists res, e = EvExec (applyCmd name k) res) ->
  scratch_ok tmp c e.
Proof.
  intros Hname [(?&->)|(?&->)]; cbn; [done|].
  intros f k' pw Heq. unfold_hyp_cmds. simplify_eq.
Qed.

Lemma steps_scratch tmp url username password rhcephPassword c k (s0 : Sys) r t s' :
  fail_fast (steps json_decode icspYAML odfCatalogSourceYAML
               url username password rhcephPassword c k) s0 = (r, t, s') ->
  Forall (scratch_ok tmp c) t.
Proof.
  intros (r1 & t1 & s1 & E1 & H1)%steps_run.
  pose proof E1 as (_ & A1)%login_run.
  eapply Forall_impl in A1; [|apply (scratch_login tmp c)].
  destruct r1 as [[]| | |]; try done.
  2:{ destruct H1 as (_ & _ & ->). rewrite !Forall_app. by repeat constructor. }
  destruct H1 as (r2 & t2 & s2 & E2 & H2).
  pose proof E2 as (_ & _ & A2)%addRHCEPHAuth_run.
  eapply Forall_impl in A2; [|apply (scratch_auth tmp)].
  destruct r2 as [[]| | |]; try done.
  2:{ destruct H2 as (_ & _ & ->). rewrite !Forall_app. by repeat constructor. }
  destruct H2 as (r3 & t3 & s3 & E3 & H3).
  pose proof E3 as (_ & _ & A3')%addICSP_run.
  assert (A3 : Forall (scratch_ok tmp c) t3).
  { eapply Forall_impl; [exact A3'|]. intros e He.
    eapply scratch_apply; [|exact He]. in_list. }
  destruct r3 as [[]| | |]; try done.
  2:{ destruct H3 as (_ & _ & ->). rewrite !Forall_app. by repeat constructor. }
  destruct H3 as (r4 & t4 & E4 & H4).
  pose proof E4 as (_ & _ & A4')%addCatalogSource_run.
  assert (A4 : Forall (scratch_ok tmp c) t4).
  { eapply Forall_impl; [exact A4'|]. intros e He.
    eapply scratch_apply; [|exact He]. in_list. }
  destruct r4 as [[]| | |]; try done; destruct H4 as [_ ->];
    rewrite !Forall_app; by repeat constructor.
Qed.

(** *** The run of [main] *)

Lemma main_usage_run cl (s : Sys) :
  urlFlag cl = "" \/ passwordFlag cl = "" \/ rhcephPasswordFlag cl = "" ->
  exists msg,
    main json_decode icspYAML odfCatalogSourceYAML cl s =
      (Exit 1,
       [ EvLog ERROR msg [];
         EvPrintln "Usage: ./odfdr-installer -url <URL> -username <username> -password <password> -rhceph-password <password>";
         EvPrintln "Example: ./odfdr-installer -url ./odfdr-installer -url api.cluster.example.com:6443 -password abc -rhceph-password=xyz" ],
       s).
Proof.
  intros Hmiss. unfold main.
  destruct (decide (urlFlag cl = "")); [by eexists|].
  destruct (decide (passwordFlag cl = "")); [by eexists|].
  destruct (decide (rhcephPasswordFlag cl = "")); [by eexists|].
  by destruct Hmiss as [?|[?|?]].
Qed.

(** What a run of [main] is made of, flags given or not. *)
Lemma main_run cl (s : Sys) r t s' :
  main json_decode icspYAML odfCatalogSourceYAML cl s = (r, t, s') ->
  (r = Exit 1 /\ Forall (fun e => match e with
                                  | EvLog _ _ _ | EvPrintln _ => True
                                  | _ => False
                                  end) t)
  \/ exists r0 t0 s0,
       preflight (urlFlag cl) s = (r0, t0, s0)
       /\ match r0 with
          | Ok (c, k) =>
              exists t1,
                fail_fast (steps json_decode icspYAML odfCatalogSourceYAML
                             (urlFlag cl) (usernameFlag cl) (passwordFlag cl)
                             (rhcephPasswordFlag cl) c k) s0 = (r, t1, s')
                /\ t = (t0 ++ t1)%list
          | _ => r = Exit 1 /\ t = t0
          end.
Proof.
  intros Hmain.
  destruct (decide (urlFlag cl = "")) as [|Hurl];
    [|destruct (decide (passwordFlag cl = "")) as [|Hpw];
      [|destruct (decide (rhcephPasswordFlag cl = "")) as [|Hrh]]].
  1-3: left;
       destruct (main_usage_run cl s) as [msg Hu]; [by auto|];
       rewrite Hu in Hmain; injection Hmain as <- <- <-;
       split; [done|by repeat constructor].
  right. rewrite main_decompose in Hmain by done.
  unfold bind in Hmain.
  destruct (preflight (urlFlag cl) s) as [[r0 t0] s0] eqn:Epre.
  exists r0, t0, s0. split; [done|].
  pose proof Epre as [_ [->|(c & k & -> & _)]]%preflight_run.
  - by injection Hmain as <- <- <-.
  - cbn [fst snd] in Hmain.
    destruct (fail_fast _ s0) as [[r1 t1] s1] eqn:Eff.
    injection Hmain as <- <- <-. by exists t1.
Qed.


Lemma preflight_not_catalog url (s : Sys) r t0 s0 c k :
  preflight url s = (r, t0, s0) ->
  Forall (fun e => ~ catalog_apply c k e) t0.
Proof.
  intros [Hall _]%preflight_run.
  eapply Forall_impl; [exact Hall|].
  intros e He [res ->]. exact He.
Qed.

(** C6. Whenever [--url], [--password] or [--rhceph-password] is empty,
    all the process does is log which flag is missing, print the two
    usage lines to standard output and exit with status 1: no other call
    into the host is made and the host is left as it was.  [--username]
    is not among the flags checked, and leaving it out is the same as
    passing [kubeadmin]. *)
Theorem main_missing_flag_usage cl (s : Sys) :
  (urlFlag cl = "" \/ passwordFlag cl = "" \/ rhcephPasswordFlag cl = "" ->
   exists msg,
     main json_decode icspYAML odfCatalogSourceYAML cl s =
       (Exit 1,
        [ EvLog ERROR msg [];
          EvPrintln "Usage: ./odfdr-installer -url <URL> -username <username> -password <password> -rhceph-password <password>";
          EvPrintln "Example: ./odfdr-installer -url ./odfdr-installer -url api.cluster.example.com:6443 -password abc -rhceph-password=xyz" ],
        s)
     /\ exit_status (main json_decode icspYAML odfCatalogSourceYAML cl s).1.1 ≠ 0%Z)
  /\ (cl !! "username" = None ->
      usernameFlag cl = "kubeadmin"
      /\ main json_decode icspYAML odfCatalogSourceYAML cl s
         = main json_decode icspYAML odfCatalogSourceYAML
             (<["username" := "kubeadmin"]> cl) s).
Proof.
  split.
  - intros [msg Hu]%(main_usage_run cl s). exists msg. by rewrite Hu.
  - intros Hnone. split; [unfold usernameFlag, flag_String; by rewrite Hnone|].
    unfold main, urlFlag, usernameFlag, passwordFlag, rhcephPasswordFlag,
      flag_String.
    rewrite lookup_insert_eq, !lookup_insert_ne by done. by rewrite Hnone.
Qed.

(** C7. With the three required flags given, a run is the preflight
    followed by the four steps in the fixed order login, credential
    merge, ICSP apply, catalog-source apply, under fail-fast sequencing:
    the first step that returns an error ends the process with status 1
    and no later step runs.  The exit status is 0 or 1; in the trace every
    submission of the catalog source comes after a successful apply of
    the mirroring policy; and the status is 0 only when each of the four
    steps, started in the state its predecessor left, returned success. *)
Theorem main_fail_fast cl (s : Sys) r t s' :
  urlFlag cl ≠ "" -> passwordFlag cl ≠ "" -> rhcephPasswordFlag cl ≠ "" ->
  main json_decode icspYAML odfCatalogSourceYAML cl s = (r, t, s') ->
  (r, t, s') =
    bind (preflight (urlFlag cl))
      (fun ck => fail_fast
         (steps json_decode icspYAML odfCatalogSourceYAML
            (urlFlag cl) (usernameFlag cl) (passwordFlag cl)
            (rhcephPasswordFlag cl) ck.1 ck.2)) s
  /\ (exit_status r = 0%Z \/ exit_status r = 1%Z)
  /\ (forall c k t0 s0,
        preflight (urlFlag cl) s = (Ok (c, k), t0, s0) ->
        preceded_by (icsp_applied c k) (catalog_apply c k) t)
  /\ (exit_status r = 0%Z ->
      exists c k t0 s0 t1 s1 t2 s2 t3 s3 t4,
        preflight (urlFlag cl) s = (Ok (c, k), t0, s0)
        /\ login (urlFlag cl) (usernameFlag cl) (passwordFlag cl) k s0
           = (Ok tt, t1, s1)
        /\ addRHCEPHAuth json_decode c k (rhcephPasswordFlag cl) s1
           = (Ok tt, t2, s2)
        /\ addICSP icspYAML c k s2 = (Ok tt, t3, s3)
        /\ addCatalogSource c k odfCatalogSourceYAML s3 = (Ok tt, t4, s')
        /\ t = (t0 ++ t1 ++ t2 ++ t3 ++ t4)%list).
Proof.
  intros Hurl Hpw Hrh Hmain. split.
  { rewrite <- Hmain. by apply main_decompose. }
  destruct (main_run _ _ _ _ _ Hmain) as [[-> Hall]|(r0 & t0 & s0 & Epre & Hr0)].
  { split; [by right|]. split; [|done].
    intros c k t0 s0 _. apply preceded_by_none.
    eapply Forall_impl; [exact Hall|]. intros e He [res ->]. exact He. }
  destruct r0 as [[c k]| | |].
  2-4: destruct Hr0 as [-> ->]; (split; [by right|]); (split; [|done]);
       intros c k t1 s1 Heq; by rewrite Heq in Epre.
  destruct Hr0 as (t1 & Eff & ->).
  pose proof (steps_status _ _ _ _ _ _ _ _ _ _ Eff) as Hst.
  split; [destruct Hst as [-> | ->]; auto|]. split.
  - intros c' k' t0' s0' Heq. rewrite Heq in Epre. injection Epre as -> -> -> ->.
    eapply steps_order; [exact Eff|].
    eapply preflight_not_catalog. exact Heq.
  - intros Hzero. destruct Hst as [-> | ->]; [|done].
    destruct (steps_success _ _ _ _ _ _ _ _ _ Eff)
      as (t1' & s1 & t2 & s2 & t3 & s3 & t4 & E1 & E2 & E3 & E4 & ->).
    by exists c, k, t0, s0, t1', s1, t2, s2, t3, s3, t4.
Qed.

(** C8, as the code has it. The kubeconfig file is created by
    [os.CreateTemp] with an empty directory argument, that is in the
    host's temporary directory [os.TempDir()], not in the working
    directory, under a name made from the pattern
    [<cluster>-kubeconfig-*].  The other scratch files carry the names
    the specification lists: every file the run writes itself is one of
    [<cluster>-pull-secret.json], [<cluster>-new-pull-secret.json],
    [<cluster>-icsp.yaml] and [<cluster>-catalogsource.yaml], and every
    registry login stores its credential in
    [<cluster>-append-pull-secret.json].  A run that exits with status 0
    has created the kubeconfig file and written the snapshot and the two
    manifests. *)
Theorem scratch_file_names cl (s : Sys) r t s' c :
  main json_decode icspYAML odfCatalogSourceYAML cl s = (r, t, s') ->
  getClusterName (urlFlag cl) = Ok c ->
  Forall (scratch_ok (os_TempDir s) c) t
  /\ (exit_status r = 0%Z ->
      exists kconfig snapshot,
        In (EvCreateTemp (os_TempDir s) (c +:+ "-kubeconfig" +:+ "-*")
              (Success kconfig)) t
        /\ In (EvWriteFile (c +:+ "-pull-secret.json") snapshot (Success tt)) t
        /\ In (EvWriteFile (c +:+ "-icsp.yaml") icspYAML (Success tt)) t
        /\ In (EvWriteFile (c +:+ "-catalogsource.yaml") odfCatalogSourceYAML
                 (Success tt)) t).
Proof.
  intros Hmain Hc.
  destruct (main_run _ _ _ _ _ Hmain) as [[-> Hall]|(r0 & t0 & s0 & Epre & Hr0)].
  { split; [|done]. eapply Forall_impl; [exact Hall|]. by intros []. }
  pose proof Epre as [Hall0 Hres]%preflight_run.
  assert (H0 : Forall (scratch_ok (os_TempDir s) c) t0).
  { eapply Forall_impl; [exact Hall0|]. intros [] He; try done; cbn.
    destruct He as (-> & c' & Hc' & ->). rewrite Hc in Hc'. by injection Hc' as <-. }
  destruct r0 as [[c' k]| | |].
  2-4: by destruct Hr0 as [-> ->].
  destruct Hres as [|(c'' & k' & [= <- <-] & Hc' & Hin)]; [done|].
  rewrite Hc in Hc'. injection Hc' as <-.
  destruct Hr0 as (t1 & Eff & ->). split.
  - rewrite Forall_app. split; [done|]. by eapply steps_scratch.
  - pose proof (steps_status _ _ _ _ _ _ _ _ _ _ Eff) as [-> | ->]; [|done].
    intros _.
    destruct (steps_success _ _ _ _ _ _ _ _ _ Eff)
      as (t1' & s1 & t2 & s2 & t3 & s3 & t4 & E1 & E2 & E3 & E4 & ->).
    pose proof E2 as (_ & O2 & _)%addRHCEPHAuth_run.
    destruct (O2 eq_refl) as [snapshot Hsnap].
    pose proof E3 as (_ & O3 & _)%addICSP_run.
    destruct (O3 eq_refl) as [out3 ->].
    pose proof E4 as (_ & O4 & _)%addCatalogSource_run.
    destruct (O4 eq_refl) as [out4 ->].
    exists k, snapshot. rewrite !in_app_iff. repeat split.
    + by left.
    + right. right. by left.
    + right. right. right. left. in_list.
    + right. right. right. right. in_list.
Qed.

End MainFacts.

(** * The properties on the simulated host *)

(** The README's run: one credential on the cluster, one handed out by
    the registry login, two after the merge. *)
Lemma addRHCEPHAuth_count_check_witness :
  auths_of Sim.decode (Sim.secret Sim.cluster)
    = Some {[ "registry.redhat.io" := Sim.credential "abc" ]}
  /\ (Sim.merge_step Sim.cluster).1.1 = Ok tt
  /\ exists mergedOutput newAuths,
       In (EvExec (mergeCmd "cluster-pull-secret.json"
                     "cluster-append-pull-secret.json") (Success mergedOutput))
          (Sim.merge_step Sim.cluster).1.2
       /\ auths_of Sim.decode mergedOutput = Some newAuths
       /\ size newAuths = 2.
Proof.
  assert (Hauths : auths_of Sim.decode (Sim.secret Sim.cluster)
            = Some {[ "registry.redhat.io" := Sim.credential "abc" ]}) by sim_true.
  destruct (Sim.merge_step Sim.cluster) as [[r t] s'] eqn:E.
  assert (Hr : r = Ok tt)
    by (pose proof E as E'; vm_compute in E'; by injection E' as <- _ _).
  destruct (addRHCEPHAuth_count_check Sim.decode "cluster" Sim.kconfig "xyz"
              Sim.cluster Sim.cluster (Sim.secret Sim.cluster)
              {[ "registry.redhat.io" := Sim.credential "abc" ]} r t s')
    as [Hok _]; [sim_true|exact Hauths|sim_true|exact E|].
  destruct (Hok Hr) as (m & na & Hin & Hna & Hsz).
  split; [exact Hauths|]. split; [exact Hr|].
  exists m, na. split; [exact Hin|]. split; [exact Hna|].
  rewrite Hsz. sim_true.
Defined.

(** Scenario C of the specification: the registry login hands out no
    credential, the merged document has the one entry it had, and the
    run ends with the count-mismatch error. *)
Example addRHCEPHAuth_no_credential :
  (Sim.merge_step Sim.no_credential).1.1
  = Err "pull secret does not contain the expected number of elements".
Proof. sim_true. Qed.

(** C2, as the specification states it, fails on the code: when the
    registry login hands out two credentials the count verification
    fails, and by then the cluster's pull secret, which had one entry,
    has been replaced by the merged document with three. *)
Lemma unverified_merge_reaches_cluster :
  (Sim.merge_step Sim.two_credentials).1.1
    = Err "pull secret does not contain the expected number of elements"
  /\ auths_of Sim.decode (Sim.secret Sim.two_credentials)
     = Some {[ "registry.redhat.io" := Sim.credential "abc" ]}
  /\ auths_of Sim.decode (Sim.secret (Sim.merge_step Sim.two_credentials).2)
     = Some {[ "registry.redhat.io" := Sim.credential "abc";
               "quay.io/rhceph-dev" := Sim.credential "xyz";
               "mirror.example.com" := Sim.credential "pqr" ]}
  /\ Sim.secret (Sim.merge_step Sim.two_credentials).2
     ≠ Sim.secret Sim.two_credentials.
Proof.
  split; [sim_true|]. split; [sim_true|]. split; [sim_true|].
  vm_compute. intros [=].
Qed.

Lemma addRHCEPHAuth_push_before_check_witness :
  (Sim.merge_step Sim.two_credentials).1.1
    = Err "pull secret does not contain the expected number of elements"
  /\ exists mergedOutput pushed,
       In (EvWriteFile "cluster-new-pull-secret.json" mergedOutput (Success tt))
          (Sim.merge_step Sim.two_credentials).1.2
       /\ In (EvExec (updateCmd "cluster-new-pull-secret.json" Sim.kconfig)
                (Success pushed))
            (Sim.merge_step Sim.two_credentials).1.2.
Proof.
  destruct (Sim.merge_step Sim.two_credentials) as [[r t] s'] eqn:E.
  assert (Hr : r = Err "pull secret does not contain the expected number of elements")
    by (pose proof E as E'; vm_compute in E'; by injection E' as <- _ _).
  split; [exact Hr|].
  exact (proj1 (addRHCEPHAuth_push_before_check Sim.decode "cluster" Sim.kconfig
                  "xyz" Sim.two_credentials r t s' E) Hr).
Defined.

(** C3, as the specification states it, fails on the code: the [auths]
    mapping contains the key, bound to [null], and the run logs into the
    registry, replaces the cluster's pull secret and ends in an error. *)
Lemma null_entry_is_not_noop :
  (exists auths,
     auths_of Sim.decode (Sim.secret Sim.null_entry) = Some auths
     /\ auths !! "quay.io/rhceph-dev" = Some JNil)
  /\ In (EvExec (registryLoginCmd "cluster-append-pull-secret.json" Sim.kconfig "xyz")
           (Success ""))
        (Sim.merge_step Sim.null_entry).1.2
  /\ (Sim.merge_step Sim.null_entry).1.1 ≠ Ok tt
  /\ Sim.secret (Sim.merge_step Sim.null_entry).2 ≠ Sim.secret Sim.null_entry.
Proof.
  split.
  { exists {[ "registry.redhat.io" := Sim.credential "abc";
              "quay.io/rhceph-dev" := JNil ]}. split; sim_true. }
  split; [vm_compute; tauto|].
  split; vm_compute; intros [=].
Qed.

Lemma addRHCEPHAuth_noop_when_present_witness :
  auths_of Sim.decode (Sim.secret Sim.configured)
    = Some {[ "registry.redhat.io" := Sim.credential "abc";
              "quay.io/rhceph-dev" := Sim.credential "xyz" ]}
  /\ (Sim.merge_step Sim.configured).1.1 = Ok tt
  /\ (Sim.merge_step Sim.configured).1.2
     = [ EvExec (getPullSecretCmd Sim.kconfig) (Success (Sim.secret Sim.configured));
         EvWriteFile "cluster-pull-secret.json" (Sim.secret Sim.configured) (Success tt);
         EvLog INFO "RHCEPH auth already exists in pull secret" [] ].
Proof.
  assert (Hauths : auths_of Sim.decode (Sim.secret Sim.configured)
            = Some {[ "registry.redhat.io" := Sim.credential "abc";
                      "quay.io/rhceph-dev" := Sim.credential "xyz" ]}) by sim_true.
  split; [exact Hauths|].
  destruct (Sim.merge_step Sim.configured) as [[r t] s'] eqn:E.
  destruct (addRHCEPHAuth_noop_when_present Sim.decode "cluster" Sim.kconfig "xyz"
              Sim.configured Sim.configured (Sim.secret Sim.configured)
              {[ "registry.redhat.io" := Sim.credential "abc";
                 "quay.io/rhceph-dev" := Sim.credential "xyz" ]}
              (Sim.credential "xyz") r t s')
    as [_ Hok]; [sim_true|exact Hauths|sim_true|done|exact E|].
  apply Hok. pose proof E as E'. vm_compute in E'. injection E' as _ <- _.
  sim_true.
Defined.

Lemma addRHCEPHAuth_malformed_witness :
  malformed Sim.decode (Sim.secret Sim.not_a_mapping)
  /\ (exists e, (Sim.merge_step Sim.not_a_mapping).1.1 = Err e)
  /\ forall res,
       ~ In (EvExec (registryLoginCmd "cluster-append-pull-secret.json"
                       Sim.kconfig "xyz") res)
            (Sim.merge_step Sim.not_a_mapping).1.2.
Proof.
  assert (Hbad : malformed Sim.decode (Sim.secret Sim.not_a_mapping)) by sim_true.
  split; [exact Hbad|].
  destruct (Sim.merge_step Sim.not_a_mapping) as [[r t] s'] eqn:E.
  destruct (addRHCEPHAuth_malformed Sim.decode "cluster" Sim.kconfig "xyz"
              Sim.not_a_mapping Sim.not_a_mapping (Sim.secret Sim.not_a_mapping)
              r t s') as (He & _ & _ & Hno); [sim_true|exact Hbad|exact E|].
  split; [exact He|exact Hno].
Defined.

Lemma addRHCEPHAuth_null_entry_proceeds_witness :
  (exists auths,
     auths_of Sim.decode (Sim.secret Sim.null_entry) = Some auths
     /\ auths !! "quay.io/rhceph-dev" = Some JNil)
  /\ ~ In (EvLog INFO "RHCEPH auth already exists in pull secret" [])
          (Sim.merge_step Sim.null_entry).1.2
  /\ exists res,
       (Sim.merge_step Sim.null_entry).1.2 !! 2%nat
       = Some (EvExec (registryLoginCmd "cluster-append-pull-secret.json"
                         Sim.kconfig "xyz") res).
Proof.
  assert (Hauths : auths_of Sim.decode (Sim.secret Sim.null_entry)
            = Some {[ "registry.redhat.io" := Sim.credential "abc";
                      "quay.io/rhceph-dev" := JNil ]}) by sim_true.
  split; [eexists; split; [exact Hauths|sim_true]|].
  destruct (Sim.merge_step Sim.null_entry) as [[r t] s'] eqn:E.
  destruct (addRHCEPHAuth_null_entry_proceeds Sim.decode "cluster" Sim.kconfig "xyz"
              Sim.null_entry Sim.null_entry
              (Sim.put_file Sim.null_entry "cluster-pull-secret.json"
                 (Sim.secret Sim.null_entry))
              (Sim.secret Sim.null_entry)
              {[ "registry.redhat.io" := Sim.credential "abc";
                 "quay.io/rhceph-dev" := JNil ]} r t s')
    as (Hlog & res & Hres & _); [sim_true|exact Hauths|sim_true|sim_true|exact E|].
  split; [exact Hlog|]. by exists res.
Defined.

(** The cluster keeps its old secret: the second read returns a
    document with one entry, and the run still succeeds, on the two
    entries of the merged document. *)
Lemma addRHCEPHAuth_verdict_from_merged_witness :
  last (Sim.merge_step Sim.stale_cluster).1.2
    = Some (EvExec (getPullSecretCmd Sim.kconfig) (Success (Sim.secret Sim.cluster)))
  /\ auths_of Sim.decode (Sim.secret Sim.cluster)
     = Some {[ "registry.redhat.io" := Sim.credential "abc" ]}
  /\ exists mergedOutput,
       In (EvExec (mergeCmd "cluster-pull-secret.json"
                     "cluster-append-pull-secret.json") (Success mergedOutput))
          (Sim.merge_step Sim.stale_cluster).1.2
       /\ match auths_of Sim.decode mergedOutput with
          | Some newAuths =>
              if decide (size newAuths = 1 + 1)
              then (Sim.merge_step Sim.stale_cluster).1.1 = Ok tt
              else (Sim.merge_step Sim.stale_cluster).1.1
                   = Err "pull secret does not contain the expected number of elements"
          | None => exists e, (Sim.merge_step Sim.stale_cluster).1.1 = Err e
          end.
Proof.
  assert (Hauths : auths_of Sim.decode (Sim.secret Sim.cluster)
            = Some {[ "registry.redhat.io" := Sim.credential "abc" ]}) by sim_true.
  split; [sim_true|]. split; [exact Hauths|].
  destruct (Sim.merge_step Sim.stale_cluster) as [[r t] s'] eqn:E.
  destruct (addRHCEPHAuth_verdict_from_merged Sim.decode "cluster" Sim.kconfig "xyz"
              Sim.stale_cluster Sim.stale_cluster (Sim.secret Sim.cluster)
              {[ "registry.redhat.io" := Sim.credential "abc" ]} r t s')
    as [_ Hverdict]; [sim_true|exact Hauths|exact E|].
  apply (Hverdict (Sim.secret Sim.cluster)).
  pose proof E as E'. vm_compute in E'. injection E' as _ <- _. sim_true.
Defined.

(** The run on the stale cluster succeeds although the live secret
    still lacks the registry's credential. *)
Example stale_cluster_passes_check :
  (Sim.merge_step Sim.stale_cluster).1.1 = Ok tt
  /\ Sim.secret (Sim.merge_step Sim.stale_cluster).2 = Sim.secret Sim.cluster.
Proof. split; sim_true. Qed.

(** Without flags the installer prints its usage and exits with status 1. *)
Lemma main_missing_flag_usage_witness :
  urlFlag ∅ = ""
  /\ (Sim.install ∅ Sim.cluster).1.1 = Exit 1
  /\ (exists msg l1 l2,
        (Sim.install ∅ Sim.cluster).1.2 = [EvLog ERROR msg []; EvPrintln l1; EvPrintln l2])
  /\ (Sim.install ∅ Sim.cluster).2 = Sim.cluster
  /\ Sim.install ∅ Sim.cluster
     = Sim.install (<["username" := "kubeadmin"]> ∅) Sim.cluster.
Proof.
  destruct (main_missing_flag_usage Sim.decode "kind: ImageContentSourcePolicy"
              "kind: CatalogSource" ∅ Sim.cluster) as [Husage Huser].
  destruct Husage as (msg & Hrun & _); [by left|].
  destruct Huser as [_ Hsame]; [done|].
  rewrite <- Hsame, Hrun. cbn [fst snd].
  split; [reflexivity|]. split; [reflexivity|].
  split; [by eexists _, _, _|]. split; reflexivity.
Defined.

(** The README's command line on the simulated cluster: the run exits
    with status 0 after its four steps, and the mirroring policy is
    applied before the catalog source. *)
Lemma main_fail_fast_witness :
  urlFlag Sim.example_flags ≠ ""
  /\ passwordFlag Sim.example_flags ≠ ""
  /\ rhcephPasswordFlag Sim.example_flags ≠ ""
  /\ exit_status (Sim.install Sim.example_flags Sim.cluster).1.1 = 0%Z
  /\ Sim.applied (Sim.install Sim.example_flags Sim.cluster).2
     = ["kind: ImageContentSourcePolicy"; "kind: CatalogSource"]
  /\ preceded_by (icsp_applied "cluster" Sim.kconfig)
       (catalog_apply "cluster" Sim.kconfig)
       (Sim.install Sim.example_flags Sim.cluster).1.2.
Proof.
  assert (Hurl : urlFlag Sim.example_flags ≠ "") by (vm_compute; intros [=]).
  assert (Hpw : passwordFlag Sim.example_flags ≠ "") by (vm_compute; intros [=]).
  assert (Hrh : rhcephPasswordFlag Sim.example_flags ≠ "") by (vm_compute; intros [=]).
  split; [exact Hurl|]. split; [exact Hpw|]. split; [exact Hrh|].
  split; [sim_true|]. split; [sim_true|].
  destruct (Sim.install Sim.example_flags Sim.cluster) as [[r t] s'] eqn:E.
  destruct (main_fail_fast Sim.decode "kind: ImageContentSourcePolicy"
              "kind: CatalogSource" Sim.example_flags Sim.cluster r t s'
              Hurl Hpw Hrh E) as (_ & _ & Horder & _).
  destruct (preflight (urlFlag Sim.example_flags) Sim.cluster)
    as [[r0 t0] s0] eqn:Epre.
  pose proof Epre as Epre'. vm_compute in Epre'.
  injection Epre' as <- <- <-.
  exact (Horder _ _ _ _ Epre).
Defined.

(** C8, as the specification states it, fails on the code: the working
    directory is [/work], and the kubeconfig file is created in [/tmp];
    the files the installer writes itself do land in [/work]. *)
Lemma kubeconfig_not_in_cwd :
  os_Getwd Sim.cluster = "/work"
  /\ In (EvCreateTemp "/tmp" "cluster-kubeconfig-*" (Success Sim.kconfig))
        (Sim.install Sim.example_flags Sim.cluster).1.2
  /\ Sim.files (Sim.install Sim.example_flags Sim.cluster).2
       !! "/tmp/cluster-kubeconfig-2718281828" = Some ""
  /\ Sim.files (Sim.install Sim.example_flags Sim.cluster).2
       !! "/work/cluster-kubeconfig-2718281828" = None
  /\ is_Some (Sim.files (Sim.install Sim.example_flags Sim.cluster).2
                !! "/work/cluster-pull-secret.json")
  /\ is_Some (Sim.files (Sim.install Sim.example_flags Sim.cluster).2
                !! "/work/cluster-catalogsource.yaml").
Proof.
  split; [sim_true|]. split; [vm_compute; tauto|].
  split; [sim_true|]. split; [sim_true|].
  split; vm_compute; eauto.
Qed.

Lemma scratch_file_names_witness :
  getClusterName (urlFlag Sim.example_flags) = Ok "cluster"
  /\ os_TempDir Sim.cluster = "/tmp"
  /\ Forall (scratch_ok "/tmp" "cluster")
       (Sim.install Sim.example_flags Sim.cluster).1.2.
Proof.
  assert (Hc : getClusterName (urlFlag Sim.example_flags) = Ok "cluster")
    by sim_true.
  split; [exact Hc|]. split; [sim_true|].
  destruct (Sim.install Sim.example_flags Sim.cluster) as [[r t] s'] eqn:E.
  exact (proj1 (scratch_file_names Sim.decode "kind: ImageContentSourcePolicy"
                  "kind: CatalogSource" Sim.example_flags Sim.cluster r t s'
                  "cluster" E Hc)).
Defined.

(** * Further properties of the code *)

(** ** [getClusterName] *)

(** X2. [getClusterName] fails exactly on the URLs without a dot, and the
    name it returns contains no dot. *)
Theorem getClusterName_error_iff_no_dot (url : string) :
  (strings.Count url dot = 0
   <-> getClusterName url = Err "could not parse cluster name from URL")
  /\ (forall c, getClusterName url = Ok c -> strings.Count c dot = 0).
Proof.
  rewrite getClusterName_cases.
  pose proof (Split_length url dot) as Hlen.
  pose proof (Split_no_sep url dot) as Hno.
  destruct (strings.Split url dot) as [|a [|p ps]]; simpl in Hlen.
  - done.
  - split; [split; [done|lia]|done].
  - split; [split; [lia|done]|].
    intros c [= <-].
    apply Forall_cons in Hno as [_ Hno]. by apply Forall_cons in Hno as [? _].
Qed.


(** ** Failures in traces *)

Lemma clean_removelast_split t :
  forallb (fun e => negb (failed e)) (removelast t) = true ->
  forall t1 e t2, t = (t1 ++ e :: t2)%list -> failed e = true -> t2 = [].
Proof.
  intros Hclean t1 e t2 -> He. destruct t2 as [|e' t2]; [done|]. exfalso.
  rewrite removelast_app in Hclean by done.
  rewrite forallb_app in Hclean. apply andb_prop in Hclean as [_ Hclean].
  cbn [removelast forallb] in Hclean. by rewrite He in Hclean.
Qed.

Lemma clean_no_failure t e :
  forallb (fun e => negb (failed e)) t = true -> In e t -> failed e = false.
Proof.
  rewrite forallb_forall. intros Hall Hin. specialize (Hall e Hin).
  by destruct (failed e).
Qed.

Lemma halts_app_clean a b :
  forallb (fun e => negb (failed e)) a = true ->
  halts_at_failure (a ++ b) = halts_at_failure b.
Proof.
  induction a as [|e a IH]; simpl; [done|].
  intros [He Ha]%andb_prop. destruct (failed e); [done|]. auto.
Qed.

Lemma halts_clean a :
  forallb (fun e => negb (failed e)) a = true -> halts_at_failure a = true.
Proof. intros Ha. rewrite <- (app_nil_r a). by rewrite halts_app_clean. Qed.

Lemma halts_fail_last b m a :
  forallb (fun e => negb (failed e)) (removelast b) = true ->
  halts_at_failure (b ++ [EvLog ERROR m a]) = true.
Proof.
  induction b as [|e b IH]; [done|].
  destruct b as [|e' b].
  - intros _. simpl. by destruct (failed e).
  - cbn [removelast forallb]. intros [He Hb]%andb_prop.
    change ((e :: e' :: b) ++ [EvLog ERROR m a])%list
      with (e :: ((e' :: b) ++ [EvLog ERROR m a]))%list.
    cbn [halts_at_failure]. destruct (failed e); [done|]. by apply IH.
Qed.

Lemma error_line_inv (t : list Event) :
  match t with [EvLog ERROR _ _] => true | _ => false end = true ->
  exists m a, t = [EvLog ERROR m a].
Proof.
  destruct t as [|e [|e' t']]; [done| |];
    destruct e as [| | | | | |[] m a]; try done; eauto.
Qed.

Lemma halts_split t :
  halts_at_failure t = true ->
  forall t1 e t2, t = (t1 ++ e :: t2)%list -> failed e = true ->
  exists m a, t2 = [EvLog ERROR m a].
Proof.
  intros Ht t1. revert t Ht.
  induction t1 as [|e1 t1 IH]; intros t Ht e t2 -> He.
  - simpl in Ht. rewrite He in Ht. by apply error_line_inv.
  - simpl in Ht. destruct (failed e1) eqn:He1.
    + apply error_line_inv in Ht as (m & a & Heq).
      destruct t1 as [|? [|??]]; simplify_eq/=.
    + eapply IH; [exact Ht|done|done].
Qed.

Section ExtraFacts.

Context {Sys : Type} `{!Host Sys}.
Variable json_decode : bytes -> result any.
Variable icspYAML : string.
Variable odfCatalogSourceYAML : string.

(** *** Every step stops at its first failed host call *)

Lemma login_audit url username password k (s : Sys) r t s' :
  login url username password k s = (r, t, s') ->
  forallb (fun e => negb (failed e)) (removelast t) = true
  /\ forallb (fun e => negb (error_log e)) t = true
  /\ (r = Ok tt -> forallb (fun e => negb (failed e)) t = true).
Proof.
  unfold login, try, Run, host, bind, ret, fail, slog_Info, emit; cbn.
  host_step; step_audit.
Qed.

Lemma addICSP_audit c k (s : Sys) r t s' :
  addICSP icspYAML c k s = (r, t, s') ->
  forallb (fun e => negb (failed e)) (removelast t) = true
  /\ forallb (fun e => negb (error_log e)) t = true
  /\ (r = Ok tt -> forallb (fun e => negb (failed e)) t = true).
Proof.
  unfold addICSP, try, Run, os_WriteFile, host, bind, ret, fail; cbn.
  host_step; [host_step|]; step_audit.
Qed.

Lemma addCatalogSource_audit c k yaml (s : Sys) r t s' :
  addCatalogSource c k yaml s = (r, t, s') ->
  forallb (fun e => negb (failed e)) (removelast t) = true
  /\ forallb (fun e => negb (error_log e)) t = true
  /\ (r = Ok tt -> forallb (fun e => negb (failed e)) t = true).
Proof.
  unfold addCatalogSource, try, Run, os_WriteFile, host, bind, ret, fail; cbn.
  host_step; [host_step|]; step_audit.
Qed.

Lemma addRHCEPHAuth_audit c k pw (s : Sys) r t s' :
  addRHCEPHAuth json_decode c k pw s = (r, t, s') ->
  forallb (fun e => negb (failed e)) (removelast t) = true
  /\ forallb (fun e => negb (error_log e)) t = true
  /\ (r = Ok tt -> forallb (fun e => negb (failed e)) t = true)
  /\ r ≠ Err "pull secret does not contain auths".
Proof.
  run_auth.
  host_step; [|step_audit].
  host_step; [|step_audit].
  destruct (json_Unmarshal json_decode out) as [doc|err']; cbn; [|step_audit].
  destruct (assert_map (index doc "auths")) as [auths|] eqn:Hauths; cbn;
    [|step_audit].
  apply assert_map_Some in Hauths. rewrite Hauths; cbn.
  destruct (is_nil (index auths "quay.io/rhceph-dev")); cbn; [|step_audit].
  do 5 (host_step; [|step_audit]).
  destruct (json_Unmarshal json_decode out1) as [newDoc|err']; cbn; [|step_audit].
  destruct (assert_map (index newDoc "auths")) as [newAuths|]; cbn; [|step_audit].
  case_decide; cbn; step_audit.
Qed.

Lemma preflight_audit url (s : Sys) r t s' :
  preflight url s = (r, t, s') ->
  halts_at_failure t = true
  /\ (forall ck, r = Ok ck ->
        forallb (fun e => negb (failed e)) t = true
        /\ forallb (fun e => negb (error_log e)) t = true)
  /\ ((forall ck, r ≠ Ok ck) ->
        r = Exit 1 /\ exists m a, In (EvLog ERROR m a) t)
  /\ (exec_LookPath "jq" s = false \/ exec_LookPath "oc" s = false
      \/ getClusterName url = Err "could not parse cluster name from URL" ->
      r = Exit 1 /\ s' = s
      /\ Forall (fun e => match e with
                          | EvLookPath _ _ | EvLog _ _ _ => True
                          | _ => False
                          end) t).
Proof.
  remember (exec_LookPath "jq" s = false \/ exec_LookPath "oc" s = false
            \/ getClusterName url = Err "could not parse cluster name from URL")
    as Q eqn:HQ.
  assert (Hstop : forall t0 m a,
    halts_at_failure (t0 ++ [EvLog ERROR m a]) = true ->
    Forall (fun e => match e with
                     | EvLookPath _ _ | EvLog _ _ _ => True
                     | _ => False
                     end) t0 ->
    (Exit 1 : outcome (string * string), (t0 ++ [EvLog ERROR m a])%list, s)
      = (r, t, s') ->
    halts_at_failure t = true
    /\ (forall ck, r = Ok ck ->
          forallb (fun e => negb (failed e)) t = true
          /\ forallb (fun e => negb (error_log e)) t = true)
    /\ ((forall ck, r ≠ Ok ck) ->
          r = Exit 1 /\ exists m a, In (EvLog ERROR m a) t)
    /\ (Q ->
        r = Exit 1 /\ s' = s
        /\ Forall (fun e => match e with
                            | EvLookPath _ _ | EvLog _ _ _ => True
                            | _ => False
                            end) t)).
  { intros t0 m a Hh Hf [= <- <- <-]. split; [done|]. split; [by intros ck [=]|].
    split.
    - intros _. split; [done|]. exists m, a. apply in_app_iff. right. by left.
    - intros _. split; [done|]. split; [done|].
      apply Forall_app. split; [done|]. by repeat constructor. }
  unfold preflight, or_exit, catch, checkRequiredCommands, for_range,
    checkCommandExists, exec_LookPath', getKubeconfig, try, os_CreateTemp,
    host, lift, slog_Error, os_Exit, emit, bind, ret, fail; cbn.
  destruct (exec_LookPath "jq" s) eqn:Hjq; cbn.
  2:{ apply (Hstop [_]); [done|by repeat constructor]. }
  destruct (exec_LookPath "oc" s) eqn:Hoc; cbn.
  2:{ apply (Hstop [_; _]); [done|by repeat constructor]. }
  destruct (getClusterName_no_panic url) as [[c Hc]|Hc]; rewrite Hc; cbn.
  2:{ apply (Hstop [_; _]); [done|by repeat constructor]. }
  clear Hstop. rewrite Hc in HQ. subst Q.
  host_step; intros [= <- <- <-]; cbn.
  - split; [done|]. split; [done|]. split.
    + intros Hno. by destruct (Hno (c, name)).
    + by intros [[=]|[[=]|[=]]].
  - split; [done|]. split; [by intros ck [=]|]. split.
    + intros _. split; [done|]. eexists _, _. do 3 right. by left.
    + by intros [[=]|[[=]|[=]]].
Qed.

Lemma steps_audit url username password rhcephPassword c k (s0 : Sys) r t s' :
  fail_fast (steps json_decode icspYAML odfCatalogSourceYAML
               url username password rhcephPassword c k) s0 = (r, t, s') ->
  halts_at_failure t = true
  /\ (r = Ok tt ->
        forallb (fun e => negb (failed e)) t = true
        /\ forallb (fun e => negb (error_log e)) t = true)
  /\ (r = Exit 1 -> exists m a, In (EvLog ERROR m a) t).
Proof.
  intros (r1 & t1 & s1 & E1 & H1)%steps_run.
  pose proof E1 as (L1 & N1 & C1)%login_audit.
  destruct r1 as [[]| | |]; try done.
  2:{ destruct H1 as (-> & _ & ->). split; [by apply halts_fail_last|].
      split; [done|]. intros _. eexists _, _. apply in_app_iff. right. by left. }
  specialize (C1 eq_refl).
  destruct H1 as (r2 & t2 & s2 & E2 & H2).
  pose proof E2 as (L2 & N2 & C2 & _)%addRHCEPHAuth_audit.
  destruct r2 as [[]| | |]; try done.
  2:{ destruct H2 as (-> & _ & ->). split.
      - rewrite halts_app_clean by done. by apply halts_fail_last.
      - split; [done|]. intros _. eexists _, _.
        rewrite !in_app_iff. right. right. by left. }
  specialize (C2 eq_refl).
  destruct H2 as (r3 & t3 & s3 & E3 & H3).
  pose proof E3 as (L3 & N3 & C3)%addICSP_audit.
  destruct r3 as [[]| | |]; try done.
  2:{ destruct H3 as (-> & _ & ->). split.
      - rewrite !halts_app_clean by done. by apply halts_fail_last.
      - split; [done|]. intros _. eexists _, _.
        rewrite !in_app_iff. right. right. right. by left. }
  specialize (C3 eq_refl).
  destruct H3 as (r4 & t4 & E4 & H4).
  pose proof E4 as (L4 & N4 & C4)%addCatalogSource_audit.
  destruct r4 as [[]| | |]; try done.
  - destruct H4 as (-> & ->). specialize (C4 eq_refl).
    split; [apply halts_clean; by rewrite !forallb_app, C1, C2, C3, C4|].
    split; [|done]. intros _.
    by rewrite !forallb_app, C1, C2, C3, C4, N1, N2, N3, N4.
  - destruct H4 as (-> & ->). split.
    + rewrite !halts_app_clean by done. by apply halts_fail_last.
    + split; [done|]. intros _. eexists _, _.
      rewrite !in_app_iff. right. right. right. right. by left.
Qed.

Lemma main_audit cl (s : Sys) r t s' :
  main json_decode icspYAML odfCatalogSourceYAML cl s = (r, t, s') ->
  halts_at_failure t = true
  /\ (r = Ok tt \/ r = Exit 1)
  /\ (r = Ok tt ->
        forallb (fun e => negb (failed e)) t = true
        /\ forallb (fun e => negb (error_log e)) t = true)
  /\ (r = Exit 1 -> exists m a, In (EvLog ERROR m a) t).
Proof.
  intros Hmain.
  destruct (decide (urlFlag cl ≠ "" /\ passwordFlag cl ≠ ""
                    /\ rhcephPasswordFlag cl ≠ "")) as [(Hurl & Hpw & Hrh)|Hmiss].
  2:{ destruct (main_usage_run json_decode icspYAML odfCatalogSourceYAML cl s)
        as [msg Hu].
      { destruct (decide (urlFlag cl = "")); [by left|].
        destruct (decide (passwordFlag cl = "")); [by right; left|].
        destruct (decide (rhcephPasswordFlag cl = "")); [by right; right|].
        by destruct Hmiss. }
      rewrite Hu in Hmain. injection Hmain as <- <- <-.
      split; [done|]. split; [by right|]. split; [done|].
      intros _. exists msg, []. by left. }
  rewrite main_decompose in Hmain by done. unfold bind in Hmain.
  destruct (preflight (urlFlag cl) s) as [[r0 t0] s0] eqn:Epre.
  pose proof Epre as (H0 & Hok0 & Hno0 & _)%preflight_audit.
  destruct r0 as [[c k]| | |].
  2-4: injection Hmain as <- <- <-;
       destruct (Hno0 ltac:(done)) as [Hr Hlog];
       simplify_eq;
       (split; [done|split; [by right|split; [by intros [=]|done]]]).
  cbn [fst snd] in Hmain.
  destruct (fail_fast _ s0) as [[r1 t1] s1] eqn:Eff.
  injection Hmain as <- <- <-.
  destruct (Hok0 _ eq_refl) as [C0 N0].
  pose proof Eff as (H1 & Hok1 & Hex1)%steps_audit.
  pose proof (steps_status _ _ _ _ _ _ _ _ _ _ _ _ _ Eff) as Hst.
  split; [by rewrite halts_app_clean|]. split; [done|]. split.
  - intros Hr. destruct (Hok1 Hr) as [C1 N1].
    by rewrite !forallb_app, C0, C1, N0, N1.
  - intros Hr. destruct (Hex1 Hr) as (m & a & Hin). exists m, a.
    apply in_app_iff. by right.
Qed.

Lemma preflight_ok_trace url (s : Sys) c k t s' :
  preflight url s = (Ok (c, k), t, s') ->
  getClusterName url = Ok c
  /\ t = [ EvLookPath "jq" true; EvLookPath "oc" true;
           EvCreateTemp (os_TempDir s) (c +:+ "-kubeconfig" +:+ "-*") (Success k);
           EvClose k ].
Proof.
  unfold preflight, or_exit, catch, checkRequiredCommands, for_range,
    checkCommandExists, exec_LookPath', getKubeconfig, try, os_CreateTemp,
    host, lift, slog_Error, os_Exit, emit, bind, ret, fail; cbn.
  do 2 (host_step; [|intros [=]]).
  destruct (getClusterName_no_panic url) as [[c' Hc]|Hc]; rewrite Hc; cbn;
    [|intros [=]].
  host_step; intros [=]. by simplify_eq.
Qed.

Lemma steps_commands url username password rhcephPassword c k (s0 : Sys) r t s' :
  fail_fast (steps json_decode icspYAML odfCatalogSourceYAML
               url username password rhcephPassword c k) s0 = (r, t, s') ->
  Forall (fun e => step_event e = true
                   /\ forall cmd res, e = EvExec cmd res -> uses_kubeconfig k cmd) t.
Proof.
  set (P := fun e => step_event e = true
                     /\ forall cmd res, e = EvExec cmd res -> uses_kubeconfig k cmd).
  assert (Hlog : forall l m a, P (EvLog l m a)) by (by split).
  assert (Hwr : forall n d res, P (EvWriteFile n d res)) by (by split).
  assert (Hoc : forall cmd res, Path cmd = "oc" ->
            Env cmd = ["KUBECONFIG=" +:+ k] -> P (EvExec cmd res)).
  { intros cmd res ??. split; [done|]. intros ?? [= <- _]. by left. }
  assert (Hjq : forall cmd res, Path cmd = "jq" -> Env cmd = [] ->
            P (EvExec cmd res)).
  { intros cmd res ??. split; [done|]. intros ?? [= <- _]. by right. }
  assert (Hauth : forall e, auth_event c k rhcephPassword e -> P e).
  { intros e [[res ->]|[(d & res & ->)|[(l & m & a & ->)|[[res ->]|[[res ->]
      |[(d & res & ->)|[res ->]]]]]]]; auto. }
  intros (r1 & t1 & s1 & E1 & H1)%steps_run.
  pose proof E1 as (_ & A1)%login_run.
  eapply Forall_impl in A1;
    [|intros e [(l & m & a & ->)|[res ->]]; [apply Hlog|by apply Hoc]].
  destruct r1 as [[]| | |]; try done.
  2:{ destruct H1 as (_ & _ & ->). rewrite !Forall_app. by repeat constructor. }
  destruct H1 as (r2 & t2 & s2 & E2 & H2).
  pose proof E2 as (_ & _ & A2)%addRHCEPHAuth_run.
  eapply Forall_impl in A2; [|exact Hauth].
  destruct r2 as [[]| | |]; try done.
  2:{ destruct H2 as (_ & _ & ->). rewrite !Forall_app. by repeat constructor. }
  destruct H2 as (r3 & t3 & s3 & E3 & H3).
  pose proof E3 as (_ & _ & A3)%addICSP_run.
  eapply Forall_impl in A3;
    [|intros e [[res ->]|[res ->]]; [apply Hwr|by apply Hoc]].
  destruct r3 as [[]| | |]; try done.
  2:{ destruct H3 as (_ & _ & ->). rewrite !Forall_app. by repeat constructor. }
  destruct H3 as (r4 & t4 & E4 & H4).
  pose proof E4 as (_ & _ & A4)%addCatalogSource_run.
  eapply Forall_impl in A4;
    [|intros e [[res ->]|[res ->]]; [apply Hwr|by apply Hoc]].
  destruct r4 as [[]| | |]; try done; destruct H4 as [_ ->];
    rewrite !Forall_app; by repeat constructor.
Qed.

(** ** The preconditions of a run *)

(** X1. [checkRequiredCommands] looks the tools up in the order [jq],
    [oc] and stops at the first one missing, which its error names: when
    [jq] is missing [oc] is not looked up.  It succeeds exactly when both
    are found, and leaves the host as it was. *)
Theorem checkRequiredCommands_first_missing (s : Sys) r t s' :
  checkRequiredCommands s = (r, t, s') ->
  s' = s
  /\ (r = Ok tt <-> exec_LookPath "jq" s = true /\ exec_LookPath "oc" s = true)
  /\ (exec_LookPath "jq" s = false ->
        r = Err "jq is not installed or not in PATH"
        /\ t = [EvLookPath "jq" false])
  /\ (exec_LookPath "jq" s = true -> exec_LookPath "oc" s = false ->
        r = Err "oc is not installed or not in PATH"
        /\ t = [EvLookPath "jq" true; EvLookPath "oc" false]).
Proof.
  unfold checkRequiredCommands, for_range, checkCommandExists,
    exec_LookPath', bind, ret, fail; cbn.
  destruct (exec_LookPath "jq" s); cbn;
    [destruct (exec_LookPath "oc" s); cbn|];
    intros [= <- <- <-]; repeat split; try done; by intros [? ?].
Qed.


(** ** The commands of a run *)

(** X5. A run of [main] in which any command is started began with the
    two path lookups and the creation of the kubeconfig file in the
    temporary directory, closed at once; after these four events come
    only commands, file writes and log lines (no second temporary file),
    and every command of the run is an [oc] whose environment points it
    at that kubeconfig file, or the [jq] of the merge. *)
Theorem main_commands_use_kubeconfig cl (s : Sys) r t s' cmd res :
  main json_decode icspYAML odfCatalogSourceYAML cl s = (r, t, s') ->
  In (EvExec cmd res) t ->
  exists c k t1,
    getClusterName (urlFlag cl) = Ok c
    /\ t = ([ EvLookPath "jq" true; EvLookPath "oc" true;
              EvCreateTemp (os_TempDir s) (c +:+ "-kubeconfig" +:+ "-*") (Success k);
              EvClose k ] ++ t1)%list
    /\ forallb step_event t1 = true
    /\ forall cmd' res', In (EvExec cmd' res') t -> uses_kubeconfig k cmd'.
Proof.
  intros [[_ Hall]|(r0 & t0 & s0 & Epre & Hrest)]%main_run Hin.
  { rewrite List.Forall_forall in Hall. by apply Hall in Hin. }
  pose proof Epre as [Hpre _]%preflight_run.
  destruct r0 as [[c k]| | |].
  2-4: destruct Hrest as [_ ->]; rewrite List.Forall_forall in Hpre;
       by apply Hpre in Hin.
  destruct Hrest as (t1 & Eff & ->).
  apply preflight_ok_trace in Epre as [Hc ->].
  apply steps_commands in Eff. exists c, k, t1.
  split; [done|]. split; [done|]. split.
  - apply forallb_forall. intros e He. rewrite List.Forall_forall in Eff.
    by apply Eff.
  - intros cmd' res' [[=]|[[=]|[[=]|[[=]|Hin']]]].
    rewrite List.Forall_forall in Eff. by eapply Eff.
Qed.

(** ** Writing and applying a manifest *)

(** X6. [addICSP] first writes the embedded policy, byte for byte, to
    [<cluster>-icsp.yaml]; the only command it runs is [oc apply -f] on
    that same file, and only after the write succeeded.  It returns nil
    exactly when both succeeded, and otherwise the error wrapped under
    the message of the call that failed. *)
Theorem addICSP_writes_then_applies c k (s : Sys) r t s' :
  addICSP icspYAML c k s = (r, t, s') ->
  (exists wres t', t = EvWriteFile (c +:+ "-icsp.yaml") icspYAML wres :: t')
  /\ (forall cmd res, In (EvExec cmd res) t ->
        cmd = applyCmd (c +:+ "-icsp.yaml") k
        /\ t = [EvWriteFile (c +:+ "-icsp.yaml") icspYAML (Success tt);
                EvExec cmd res])
  /\ (r = Ok tt <->
        exists out,
          t = [EvWriteFile (c +:+ "-icsp.yaml") icspYAML (Success tt);
               EvExec (applyCmd (c +:+ "-icsp.yaml") k) (Success out)])
  /\ (forall msg, r = Err msg ->
        (exists e, msg = "error writing ICSP to file: " +:+ e
                   /\ t = [EvWriteFile (c +:+ "-icsp.yaml") icspYAML (Failure e)]
                   /\ os_write (c +:+ "-icsp.yaml") icspYAML s = (Failure e, s'))
        \/ (exists e, msg = "error applying ICSP: " +:+ e
                      /\ In (EvExec (applyCmd (c +:+ "-icsp.yaml") k) (Failure e)) t)).
Proof.
  unfold addICSP, try, Run, os_WriteFile, host, bind, ret, fail; cbn.
  destruct (os_write (c +:+ "-icsp.yaml") icspYAML s) as [[[]|e] s1] eqn:Ew; cbn.
  - destruct (exec_Run (applyCmd (c +:+ "-icsp.yaml") k) s1)
      as [[out|e] s2] eqn:Ex; cbn; intros [= <- <- <-].
    + split; [eauto|]. split; [by intros ?? [[=]|[[= <- <-]|[]]]|].
      split; [split; eauto|]. by intros msg [=].
    + split; [eauto|]. split; [by intros ?? [[=]|[[= <- <-]|[]]]|].
      split; [split; [done|by intros [? [=]]]|].
      intros msg [= <-]. right. exists e. split; [done|]. right. by left.
  - intros [= <- <- <-]. split; [eauto|]. split; [by intros ?? [[=]|[]]|].
    split; [split; [done|by intros [? [=]]]|].
    intros msg [= <-]. left. by exists e.
Qed.

(** X7. [addCatalogSource] first writes the catalog source it is given,
    byte for byte, to [<cluster>-catalogsource.yaml]; the only command it
    runs is [oc apply -f] on that same file, and only after the write
    succeeded.  It returns nil exactly when both succeeded, and otherwise
    the error wrapped under the message of the call that failed. *)
Theorem addCatalogSource_writes_then_applies c k yaml (s : Sys) r t s' :
  addCatalogSource c k yaml s = (r, t, s') ->
  (exists wres t', t = EvWriteFile (c +:+ "-catalogsource.yaml") yaml wres :: t')
  /\ (forall cmd res, In (EvExec cmd res) t ->
        cmd = applyCmd (c +:+ "-catalogsource.yaml") k
        /\ t = [EvWriteFile (c +:+ "-catalogsource.yaml") yaml (Success tt);
                EvExec cmd res])
  /\ (r = Ok tt <->
        exists out,
          t = [EvWriteFile (c +:+ "-catalogsource.yaml") yaml (Success tt);
               EvExec (applyCmd (c +:+ "-catalogsource.yaml") k) (Success out)])
  /\ (forall msg, r = Err msg ->
        (exists e, msg = "error writing CatalogSource to file: " +:+ e
                   /\ t = [EvWriteFile (c +:+ "-catalogsource.yaml") yaml (Failure e)]
                   /\ os_write (c +:+ "-catalogsource.yaml") yaml s = (Failure e, s'))
        \/ (exists e, msg = "error applying CatalogSource: " +:+ e
                      /\ In (EvExec (applyCmd (c +:+ "-catalogsource.yaml") k)
                               (Failure e)) t)).
Proof.
  unfold addCatalogSource, try, Run, os_WriteFile, host, bind, ret, fail; cbn.
  destruct (os_write (c +:+ "-catalogsource.yaml") yaml s) as [[[]|e] s1] eqn:Ew; cbn.
  - destruct (exec_Run (applyCmd (c +:+ "-catalogsource.yaml") k) s1)
      as [[out|e] s2] eqn:Ex; cbn; intros [= <- <- <-].
    + split; [eauto|]. split; [by intros ?? [[=]|[[= <- <-]|[]]]|].
      split; [split; eauto|]. by intros msg [=].
    + split; [eauto|]. split; [by intros ?? [[=]|[[= <- <-]|[]]]|].
      split; [split; [done|by intros [? [=]]]|].
      intros msg [= <-]. right. exists e. split; [done|]. right. by left.
  - intros [= <- <- <-]. split; [eauto|]. split; [by intros ?? [[=]|[]]|].
    split; [split; [done|by intros [? [=]]]|].
    intros msg [= <-]. left. by exists e.
Qed.

(** ** Failures *)

(** X8. In [addRHCEPHAuth] the type assertion [pullSecret["auths"].(map...)]
    of the presence test never panics and the check [auths == nil] before
    it never fires: whatever the host returns, the function returns (nil
    or an error), and its error is never "pull secret does not contain
    auths", because the checked assertion that comes first has already
    refused every document without an [auths] mapping. *)
Theorem addRHCEPHAuth_auths_check_unreachable c k pw (s : Sys) r t s' :
  addRHCEPHAuth json_decode c k pw s = (r, t, s') ->
  r = Ok tt
  \/ exists msg, r = Err msg /\ msg ≠ "pull secret does not contain auths".
Proof.
  intros Hrun.
  pose proof Hrun as (Hret & _)%addRHCEPHAuth_run.
  apply addRHCEPHAuth_audit in Hrun as (_ & _ & _ & Hne).
  destruct r as [[]|msg| |]; try done; [by left|].
  right. exists msg. split; [done|]. by intros ->.
Qed.

(** X9. The host calls of [addRHCEPHAuth] come in one fixed order, each
    made only after all the ones before it succeeded: the trace is a
    prefix of the seven calls of a full merge followed by one more call
    of the sequence, whose result is free, or it is the two first calls
    followed by the line saying that the credential exists.  The
    snapshot holds the bytes the first read returned, and the file that
    is pushed holds the bytes [jq] printed. *)
Theorem addRHCEPHAuth_call_order c k pw (s : Sys) r t s' :
  addRHCEPHAuth json_decode c k pw s = (r, t, s') ->
  exists out o1 merged o2 o3 n e,
    (n < 7 /\ t = (take n (auth_calls c k pw out o1 merged o2 o3) ++ [e])%list
     /\ exists e', auth_calls c k pw out o1 merged o2 o3 !! n = Some e'
                   /\ same_call e e')
    \/ (r = Ok tt
        /\ t = (take 2 (auth_calls c k pw out o1 merged o2 o3)
                ++ [EvLog INFO "RHCEPH auth already exists in pull secret" []])%list).
Proof.
  run_auth.
  host_step; [|call_at 0].
  host_step; [|call_at 1].
  destruct (json_Unmarshal json_decode out) as [doc|err']; cbn; [|call_at 1].
  destruct (assert_map (index doc "auths")) as [auths|]; cbn; [|call_at 1].
  destruct (is_nil (index doc "auths")); cbn; [call_at 1|].
  destruct (is_nil (index auths "quay.io/rhceph-dev")); cbn.
  2:{ intros [= <- <- <-].
      exists out, "", "", "", "", 0, (EvLog INFO "" []). by right. }
  host_step; [|call_at 2].
  host_step; [|call_at 3].
  host_step; [|call_at 4].
  host_step; [|call_at 5].
  host_step; [|call_at 6].
  destruct (json_Unmarshal json_decode out1) as [newDoc|err']; cbn; [|call_at 6].
  destruct (assert_map (index newDoc "auths")) as [newAuths|]; cbn; [|call_at 6].
  case_decide; cbn; call_at 6.
Qed.

(** X10. Each of the four steps of a run stops at the first host call that
    fails: a failed command, file creation or file write is the last
    event of the step's trace, and the step then returns an error.  No
    step panics or ends the process itself. *)
Theorem step_stops_at_failure url username password rhcephPassword c k
    step msg (s : Sys) r t s' :
  In (step, msg) (steps json_decode icspYAML odfCatalogSourceYAML
                    url username password rhcephPassword c k) ->
  step s = (r, t, s') ->
  returns r
  /\ forall t1 e t2, t = (t1 ++ e :: t2)%list -> failed e = true ->
       t2 = [] /\ exists m, r = Err m.
Proof.
  assert (Hgen : returns r ->
    forallb (fun e => negb (failed e)) (removelast t) = true ->
    (r = Ok tt -> forallb (fun e => negb (failed e)) t = true) ->
    returns r
    /\ forall t1 e t2, t = (t1 ++ e :: t2)%list -> failed e = true ->
         t2 = [] /\ exists m, r = Err m).
  { intros Hret Hlast Hok. split; [done|]. intros t1 e t2 Ht He. split.
    - by eapply clean_removelast_split.
    - destruct r as [[]|m| |]; try done; [|by eauto].
      assert (failed e = false); [|congruence].
      eapply clean_no_failure; [by apply Hok|]. rewrite Ht.
      apply in_app_iff. right. by left. }
  intros [[= <- <-]|[[= <- <-]|[[= <- <-]|[[= <- <-]|[]]]]] Hrun.
  - pose proof Hrun as [Hret _]%login_run.
    apply login_audit in Hrun as (? & _ & ?). by apply Hgen.
  - pose proof Hrun as [Hret _]%addRHCEPHAuth_run.
    apply addRHCEPHAuth_audit in Hrun as (? & _ & ? & _). by apply Hgen.
  - pose proof Hrun as [Hret _]%addICSP_run.
    apply addICSP_audit in Hrun as (? & _ & ?). by apply Hgen.
  - pose proof Hrun as [Hret _]%addCatalogSource_run.
    apply addCatalogSource_audit in Hrun as (? & _ & ?). by apply Hgen.
Qed.

(** X11. [main] does nothing after a failure but report it: in every run,
    whatever follows a failed path lookup, command, file creation or file
    write in the trace is one error line of the log, and the exit status
    is 1.  In particular no command runs and no file is written after the
    first failure. *)
Theorem main_stops_at_failure cl (s : Sys) r t s' t1 e t2 :
  main json_decode icspYAML odfCatalogSourceYAML cl s = (r, t, s') ->
  t = (t1 ++ e :: t2)%list ->
  failed e = true ->
  (exists m a, t2 = [EvLog ERROR m a]) /\ exit_status r = 1%Z.
Proof.
  intros (Hhalt & Hst & Hok & _)%main_audit Ht He. split.
  - by eapply halts_split.
  - destruct Hst as [->| ->]; [|done].
    destruct (Hok eq_refl) as [Hclean _].
    assert (failed e = false); [|congruence].
    eapply clean_no_failure; [exact Hclean|]. rewrite Ht.
    apply in_app_iff. right. by left.
Qed.


(** ** Running the installer again *)

Lemma addRHCEPHAuth_present_commands c k pw (s s1 : Sys) out auths v r t s' :
  exec_Run (getPullSecretCmd k) s = (Success out, s1) ->
  auths_of json_decode out = Some auths ->
  auths !! "quay.io/rhceph-dev" = Some v ->
  v ≠ JNil ->
  addRHCEPHAuth json_decode c k pw s = (r, t, s') ->
  forall cmd res, In (EvExec cmd res) t -> cmd = getPullSecretCmd k.
Proof.
  intros Hget (doc & Hdoc & Hauths)%auths_of_Some Hkey Hv.
  run_auth. rewrite Hget; cbn.
  host_step; [|leaf].
  rewrite Hdoc; cbn. rewrite Hauths; cbn.
  rewrite (index_present _ _ _ Hkey).
  destruct v; try done; cbn; leaf.
Qed.

(** X13. Running the installer on a cluster whose pull secret already
    holds a credential for [quay.io/rhceph-dev] leaves the secret alone
    and still submits the manifests: the only commands of the whole run
    are the cluster login, one read of the secret and the two
    [oc apply]; there is no registry login, no [jq] and no
    [oc set data].  When the run exits with status 0 both manifests were
    applied. *)
Theorem main_rerun_when_present cl (s : Sys) c k t0 s0 t1 s1 out s2 auths v
    r t s' :
  preflight (urlFlag cl) s = (Ok (c, k), t0, s0) ->
  login (urlFlag cl) (usernameFlag cl) (passwordFlag cl) k s0 = (Ok tt, t1, s1) ->
  exec_Run (getPullSecretCmd k) s1 = (Success out, s2) ->
  auths_of json_decode out = Some auths ->
  auths !! "quay.io/rhceph-dev" = Some v ->
  v ≠ JNil ->
  main json_decode icspYAML odfCatalogSourceYAML cl s = (r, t, s') ->
  (forall cmd res, In (EvExec cmd res) t ->
     In cmd [ loginCmd (urlFlag cl) (usernameFlag cl) (passwordFlag cl) k;
              getPullSecretCmd k;
              applyCmd (c +:+ "-icsp.yaml") k;
              applyCmd (c +:+ "-catalogsource.yaml") k ])
  /\ (exit_status r = 0%Z ->
        exists o1 o2,
          In (EvExec (applyCmd (c +:+ "-icsp.yaml") k) (Success o1)) t
          /\ In (EvExec (applyCmd (c +:+ "-catalogsource.yaml") k) (Success o2)) t).
Proof.
  intros Hpre Hlogin Hget Hauths Hkey Hv
    [[-> Hall]|(r0 & t0' & s0' & Epre & Hrest)]%main_run.
  { split; [|done]. intros cmd res Hin.
    rewrite List.Forall_forall in Hall. by apply Hall in Hin. }
  rewrite Hpre in Epre. injection Epre as <- <- <-.
  destruct Hrest as (ts & Eff & ->).
  apply preflight_ok_trace in Hpre as [_ ->].
  apply steps_run in Eff as (r1 & t1' & s1' & E1 & H1).
  rewrite Hlogin in E1. injection E1 as <- <- <-.
  destruct H1 as (r2 & t2 & s2' & E2 & H2).
  pose proof (addRHCEPHAuth_present_commands _ _ _ _ _ _ _ _ _ _ _
                Hget Hauths Hkey Hv E2) as A2.
  pose proof Hlogin as (_ & A1)%login_run.
  assert (B1 : forall cmd res, In (EvExec cmd res) t1 ->
            cmd = loginCmd (urlFlag cl) (usernameFlag cl) (passwordFlag cl) k).
  { intros cmd res Hin. rewrite List.Forall_forall in A1.
    by destruct (A1 _ Hin) as [(? & ? & ? & [=])|[? [= -> _]]]. }
  assert (Hlist : forall ta tb tc td : list Event,
    (forall cmd res, In (EvExec cmd res) ta ->
       cmd = loginCmd (urlFlag cl) (usernameFlag cl) (passwordFlag cl) k) ->
    (forall cmd res, In (EvExec cmd res) tb -> cmd = getPullSecretCmd k) ->
    (forall cmd res, In (EvExec cmd res) tc -> cmd = applyCmd (c +:+ "-icsp.yaml") k) ->
    (forall cmd res, In (EvExec cmd res) td ->
       cmd = applyCmd (c +:+ "-catalogsource.yaml") k) ->
    forall cmd res,
      In (EvExec cmd res)
         ([ EvLookPath "jq" true; EvLookPath "oc" true;
            EvCreateTemp (os_TempDir s) (c +:+ "-kubeconfig" +:+ "-*") (Success k);
            EvClose k ] ++ ta ++ tb ++ tc ++ td)%list ->
      In cmd [ loginCmd (urlFlag cl) (usernameFlag cl) (passwordFlag cl) k;
               getPullSecretCmd k;
               applyCmd (c +:+ "-icsp.yaml") k;
               applyCmd (c +:+ "-catalogsource.yaml") k ]).
  { intros ta tb tc td Ha Hb Hc Hd cmd res.
    intros [[=]|[[=]|[[=]|[[=]|Hin]]]].
    rewrite !in_app_iff in Hin.
    destruct Hin as [[]|[Hin|[Hin|[Hin|Hin]]]].
    - left. symmetry. by eapply Ha.
    - right. left. symmetry. by eapply Hb.
    - do 2 right. left. symmetry. by eapply Hc.
    - do 3 right. left. symmetry. by eapply Hd. }
  assert (Hnone : forall cmd res (m : string) (a : list (string * string)),
            In (EvExec cmd res) [EvLog ERROR m a] -> cmd = getPullSecretCmd k).
  { by intros ???? [[=]|[]]. }
  destruct r2 as [[]|e2| |]; try done.
  2:{ destruct H2 as (-> & _ & ->). split; [|done]. intros cmd res Hin.
      apply (Hlist t1 (t2 ++ [EvLog ERROR "error adding RHCEPH auth to pull secret"
                                [("error", e2)]])%list [] []) with res; try done.
      - intros cmd' res' [?|?]%in_app_iff; [by eapply A2|by eapply Hnone].
      - by rewrite !app_nil_r. }
  destruct H2 as (r3 & t3 & s3 & E3 & H3).
  pose proof E3 as (_ & Hok3 & A3)%addICSP_run.
  assert (B3 : forall cmd res, In (EvExec cmd res) t3 ->
            cmd = applyCmd (c +:+ "-icsp.yaml") k).
  { intros cmd res Hin. rewrite List.Forall_forall in A3.
    by destruct (A3 _ Hin) as [[? [=]]|[? [= -> _]]]. }
  destruct r3 as [[]|e3| |]; try done.
  2:{ destruct H3 as (-> & _ & ->). split; [|done]. intros cmd res Hin.
      apply (Hlist t1 t2 (t3 ++ [EvLog ERROR "error adding ICSP"
                                   [("error", e3)]])%list []) with res; try done.
      - intros cmd' res' [?|Hl]%in_app_iff; [by eapply B3|].
        by destruct Hl as [[=]|[]].
      - by rewrite !app_nil_r. }
  destruct H3 as (r4 & t4 & E4 & H4).
  pose proof E4 as (_ & Hok4 & A4)%addCatalogSource_run.
  assert (B4 : forall cmd res, In (EvExec cmd res) t4 ->
            cmd = applyCmd (c +:+ "-catalogsource.yaml") k).
  { intros cmd res Hin. rewrite List.Forall_forall in A4.
    by destruct (A4 _ Hin) as [[? [=]]|[? [= -> _]]]. }
  destruct r4 as [[]|e4| |]; try done.
  2:{ destruct H4 as (-> & ->). split; [|done]. intros cmd res Hin.
      apply (Hlist t1 t2 t3 (t4 ++ [EvLog ERROR "error adding CatalogSource"
                                      [("error", e4)]])%list) with res; try done.
      intros cmd' res' [?|Hl]%in_app_iff; [by eapply B4|].
      by destruct Hl as [[=]|[]]. }
  destruct H4 as (-> & ->). split; [by apply Hlist|].
  intros _. destruct (Hok3 eq_refl) as [o1 ->]. destruct (Hok4 eq_refl) as [o2 ->].
  exists o1, o2. rewrite !in_app_iff. split.
  - do 3 right. left. right. by left.
  - do 4 right. right. by left.
Qed.

End ExtraFacts.

(** * The further properties on the simulated host *)

(** The README's URL, and a URL of two segments. *)
Lemma getClusterName_between_dots_witness :
  strings.Count "api" dot = 0
  /\ strings.Count "cluster" dot = 0
  /\ getClusterName "api.cluster.example.com:6443" = Ok "cluster"
  /\ getClusterName "api.cluster" = Ok "cluster".
Proof.
  assert (Ha : strings.Count "api" dot = 0) by reflexivity.
  assert (Hb : strings.Count "cluster" dot = 0) by reflexivity.
  destruct (getClusterName_between_dots "api" "cluster" "example.com:6443" Ha Hb)
    as [H1 H2].
  split; [exact Ha|]. split; [exact Hb|]. split; [exact H1|exact H2].
Defined.

(** A machine without [jq]: the lookup of [oc] is not made. *)
Lemma checkRequiredCommands_first_missing_witness :
  exec_LookPath "jq" Faults.no_jq = false
  /\ (checkRequiredCommands Faults.no_jq).1.1
     = Err "jq is not installed or not in PATH"
  /\ (checkRequiredCommands Faults.no_jq).1.2 = [EvLookPath "jq" false]
  /\ (checkRequiredCommands Faults.no_jq).2 = Faults.no_jq.
Proof.
  assert (Hjq : exec_LookPath "jq" Faults.no_jq = false) by (vm_compute; reflexivity).
  destruct (checkRequiredCommands Faults.no_jq) as [[r t] s'] eqn:E.
  destruct (checkRequiredCommands_first_missing _ _ _ _ E) as (-> & _ & Hmiss & _).
  destruct (Hmiss Hjq) as [-> ->].
  split; [exact Hjq|]. split; [reflexivity|]. split; reflexivity.
Defined.


(** The README's command line: the cluster login is a command of the
    run, so the run began by creating and closing its kubeconfig file,
    and all its commands use that file. *)
Lemma main_commands_use_kubeconfig_witness :
  In (EvExec (loginCmd "api.cluster.example.com:6443" "kubeadmin" "abc" Sim.kconfig)
        (Success "Login successful."))
     (Sim.install Sim.example_flags Sim.cluster).1.2
  /\ exists c k t1,
       getClusterName (urlFlag Sim.example_flags) = Ok c
       /\ (Sim.install Sim.example_flags Sim.cluster).1.2
          = ([ EvLookPath "jq" true; EvLookPath "oc" true;
               EvCreateTemp (os_TempDir Sim.cluster) (c +:+ "-kubeconfig" +:+ "-*")
                 (Success k);
               EvClose k ] ++ t1)%list
       /\ forallb step_event t1 = true
       /\ forall cmd' res',
            In (EvExec cmd' res') (Sim.install Sim.example_flags Sim.cluster).1.2 ->
            uses_kubeconfig k cmd'.
Proof.
  destruct (Sim.install Sim.example_flags Sim.cluster) as [[r t] s'] eqn:E.
  assert (Hin : In (EvExec (loginCmd "api.cluster.example.com:6443" "kubeadmin"
                              "abc" Sim.kconfig) (Success "Login successful.")) t).
  { pose proof E as E'. vm_compute in E'. injection E' as _ <- _.
    do 5 right. left. reflexivity. }
  split; [exact Hin|].
  exact (main_commands_use_kubeconfig Sim.decode "kind: ImageContentSourcePolicy"
           "kind: CatalogSource" Sim.example_flags Sim.cluster r t s' _ _ E Hin).
Defined.

(** The policy is written and applied on the simulated cluster. *)
Lemma addICSP_writes_then_applies_witness :
  (addICSP "kind: ImageContentSourcePolicy" "cluster" Sim.kconfig Sim.cluster).1.1
  = Ok tt
  /\ exists out,
       (addICSP "kind: ImageContentSourcePolicy" "cluster" Sim.kconfig Sim.cluster).1.2
       = [ EvWriteFile "cluster-icsp.yaml" "kind: ImageContentSourcePolicy" (Success tt);
           EvExec (applyCmd "cluster-icsp.yaml" Sim.kconfig) (Success out) ].
Proof.
  destruct (addICSP "kind: ImageContentSourcePolicy" "cluster" Sim.kconfig Sim.cluster)
    as [[r t] s'] eqn:E.
  destruct (addICSP_writes_then_applies "kind: ImageContentSourcePolicy" "cluster"
              Sim.kconfig Sim.cluster r t s' E) as (_ & _ & Hiff & _).
  assert (Hr : r = Ok tt).
  { pose proof E as E'. vm_compute in E'. by injection E' as <- _ _. }
  split; [exact Hr|]. exact (proj1 Hiff Hr).
Defined.

(** A cluster that refuses [oc apply]: the catalog source is written,
    and the error is the one of the apply. *)
Lemma addCatalogSource_writes_then_applies_witness :
  (addCatalogSource "cluster" Sim.kconfig "kind: CatalogSource" Faults.no_apply).1.2
  = [ EvWriteFile "cluster-catalogsource.yaml" "kind: CatalogSource" (Success tt);
      EvExec (applyCmd "cluster-catalogsource.yaml" Sim.kconfig)
        (Failure "exit status 1") ]
  /\ (addCatalogSource "cluster" Sim.kconfig "kind: CatalogSource" Faults.no_apply).1.1
     ≠ Ok tt.
Proof.
  destruct (addCatalogSource "cluster" Sim.kconfig "kind: CatalogSource" Faults.no_apply)
    as [[r t] s'] eqn:E.
  destruct (addCatalogSource_writes_then_applies "cluster" Sim.kconfig
              "kind: CatalogSource" Faults.no_apply r t s' E) as (_ & Hcmd & Hiff & _).
  assert (Hin : In (EvExec (applyCmd "cluster-catalogsource.yaml" Sim.kconfig)
                      (Failure "exit status 1")) t).
  { pose proof E as E'. vm_compute in E'. injection E' as _ <- _.
    right. left. reflexivity. }
  destruct (Hcmd _ _ Hin) as [_ Ht]. split; [exact Ht|].
  intros [out Hout]%Hiff. rewrite Ht in Hout. discriminate Hout.
Defined.

(** A pull secret whose [auths] field is [null]: the checked assertion
    refuses it, not the [nil] test after it. *)
Lemma addRHCEPHAuth_auths_check_unreachable_witness :
  (Sim.merge_step Faults.null_auths).1.1 = Err "invalid pull secret format"
  /\ ((Sim.merge_step Faults.null_auths).1.1 = Ok tt
      \/ exists msg, (Sim.merge_step Faults.null_auths).1.1 = Err msg
                     /\ msg ≠ "pull secret does not contain auths").
Proof.
  destruct (Sim.merge_step Faults.null_auths) as [[r t] s'] eqn:E.
  split.
  - pose proof E as E'. vm_compute in E'. by injection E' as <- _ _.
  - exact (addRHCEPHAuth_auths_check_unreachable Sim.decode "cluster" Sim.kconfig
             "xyz" Faults.null_auths r t s' E).
Defined.

(** A cluster that refuses [oc set data]: the run is the first five
    calls of the merge followed by the push, which fails. *)
Lemma addRHCEPHAuth_call_order_witness :
  length (Sim.merge_step Faults.read_only_secret).1.2 = 6
  /\ exists out o1 merged o2 o3 e,
       (Sim.merge_step Faults.read_only_secret).1.2
       = (take 5 (auth_calls "cluster" Sim.kconfig "xyz" out o1 merged o2 o3) ++ [e])%list
       /\ same_call e (EvExec (updateCmd "cluster-new-pull-secret.json" Sim.kconfig)
                         (Success o2)).
Proof.
  destruct (Sim.merge_step Faults.read_only_secret) as [[r t] s'] eqn:E.
  assert (Hlen : length t = 6).
  { pose proof E as E'. vm_compute in E'. by injection E' as _ <- _. }
  assert (Hr : r ≠ Ok tt).
  { pose proof E as E'. vm_compute in E'. by injection E' as <- _ _. }
  split; [exact Hlen|].
  destruct (addRHCEPHAuth_call_order Sim.decode "cluster" Sim.kconfig "xyz"
              Faults.read_only_secret r t s' E)
    as (out & o1 & merged & o2 & o3 & n & e & [(Hn & Ht & e' & He' & Hsame)|[Hok _]]);
    [|by destruct Hr].
  exists out, o1, merged, o2, o3, e.
  assert (n = 5) as ->.
  { rewrite Ht in Hlen. rewrite length_app, length_take in Hlen.
    cbn [length auth_calls] in Hlen. lia. }
  split; [exact Ht|]. injection He' as <-. exact Hsame.
Defined.

(** A cluster that refuses [oc apply]: the mirroring step ends with the
    failed apply and returns an error. *)
Lemma step_stops_at_failure_witness :
  failed (EvExec (applyCmd "cluster-icsp.yaml" Sim.kconfig) (Failure "exit status 1"))
  = true
  /\ (addICSP "kind: ImageContentSourcePolicy" "cluster" Sim.kconfig Faults.no_apply).1.2
     = [ EvWriteFile "cluster-icsp.yaml" "kind: ImageContentSourcePolicy" (Success tt);
         EvExec (applyCmd "cluster-icsp.yaml" Sim.kconfig) (Failure "exit status 1") ]
  /\ exists m,
       (addICSP "kind: ImageContentSourcePolicy" "cluster" Sim.kconfig Faults.no_apply).1.1
       = Err m.
Proof.
  destruct (addICSP "kind: ImageContentSourcePolicy" "cluster" Sim.kconfig Faults.no_apply)
    as [[r t] s'] eqn:E.
  assert (Ht : t = ([EvWriteFile "cluster-icsp.yaml" "kind: ImageContentSourcePolicy"
                       (Success tt)]
                    ++ EvExec (applyCmd "cluster-icsp.yaml" Sim.kconfig)
                         (Failure "exit status 1") :: [])%list).
  { pose proof E as E'. vm_compute in E'. by injection E' as _ <- _. }
  assert (Hstep : In (addICSP "kind: ImageContentSourcePolicy" "cluster" Sim.kconfig,
                      "error adding ICSP")
                    (steps Sim.decode "kind: ImageContentSourcePolicy"
                       "kind: CatalogSource" "api.cluster.example.com:6443"
                       "kubeadmin" "abc" "xyz" "cluster" Sim.kconfig)).
  { right. right. left. reflexivity. }
  destruct (step_stops_at_failure Sim.decode "kind: ImageContentSourcePolicy"
              "kind: CatalogSource" "api.cluster.example.com:6443" "kubeadmin"
              "abc" "xyz" "cluster" Sim.kconfig _ _ Faults.no_apply r t s' Hstep E)
    as [_ Hstop].
  destruct (Hstop _ _ _ Ht eq_refl) as [_ Herr].
  split; [reflexivity|]. split; [exact Ht|exact Herr].
Defined.

(** A cluster that refuses [oc apply]: after the failed apply of the
    policy the run logs one error and exits with status 1; the catalog
    source is neither written nor applied. *)
Lemma main_stops_at_failure_witness :
  (Sim.install Sim.example_flags Faults.no_apply).1.2
  = (take 14 (Sim.install Sim.example_flags Faults.no_apply).1.2
     ++ EvExec (applyCmd "cluster-icsp.yaml" Sim.kconfig) (Failure "exit status 1")
     :: drop 15 (Sim.install Sim.example_flags Faults.no_apply).1.2)%list
  /\ (exists m a,
        drop 15 (Sim.install Sim.example_flags Faults.no_apply).1.2 = [EvLog ERROR m a])
  /\ exit_status (Sim.install Sim.example_flags Faults.no_apply).1.1 = 1%Z.
Proof.
  destruct (Sim.install Sim.example_flags Faults.no_apply) as [[r t] s'] eqn:E.
  assert (Ht : t = (take 14 t
                    ++ EvExec (applyCmd "cluster-icsp.yaml" Sim.kconfig)
                         (Failure "exit status 1") :: drop 15 t)%list).
  { pose proof E as E'. vm_compute in E'. injection E' as _ <- _.
    vm_compute. reflexivity. }
  split; [exact Ht|].
  exact (main_stops_at_failure Sim.decode "kind: ImageContentSourcePolicy"
           "kind: CatalogSource" Sim.example_flags Faults.no_apply r t s'
           _ _ _ E Ht eq_refl).
Defined.

(** The installer run on a cluster it has configured before: the run
    exits with status 0, and logs into no registry, merges nothing and
    pushes nothing. *)
Lemma main_rerun_when_present_witness :
  exit_status (Sim.install Sim.example_flags Sim.configured).1.1 = 0%Z
  /\ (forall cmd res,
        In (EvExec cmd res) (Sim.install Sim.example_flags Sim.configured).1.2 ->
        In cmd [ loginCmd "api.cluster.example.com:6443" "kubeadmin" "abc" Sim.kconfig;
                 getPullSecretCmd Sim.kconfig;
                 applyCmd "cluster-icsp.yaml" Sim.kconfig;
                 applyCmd "cluster-catalogsource.yaml" Sim.kconfig ])
  /\ Sim.secret (Sim.install Sim.example_flags Sim.configured).2
     = Sim.secret Sim.configured.
Proof.
  destruct (preflight (urlFlag Sim.example_flags) Sim.configured)
    as [[r0 t0] s0] eqn:Epre.
  pose proof Epre as Epre'. vm_compute in Epre'. injection Epre' as <- <- <-.
  match type of Epre with _ = (_, _, ?w) => set (w0 := w) in * end.
  destruct (login (urlFlag Sim.example_flags) (usernameFlag Sim.example_flags)
              (passwordFlag Sim.example_flags) Sim.kconfig w0)
    as [[r1 t1] s1] eqn:Elogin.
  pose proof Elogin as Elogin'. vm_compute in Elogin'.
  injection Elogin' as <- <- <-.
  match type of Elogin with _ = (_, _, ?w) => set (w1 := w) in * end.
  destruct (exec_Run (getPullSecretCmd Sim.kconfig) w1) as [out s2] eqn:Eget.
  pose proof Eget as Eget'. vm_compute in Eget'. injection Eget' as <- <-.
  match type of Eget with _ = (Success ?o, _) => set (doc := o) in * end.
  assert (Hauths : auths_of Sim.decode doc
            = Some {[ "quay.io/rhceph-dev" := Sim.credential "xyz";
                      "registry.redhat.io" := Sim.credential "abc" ]})
    by (vm_compute; reflexivity).
  assert (Hkey : ({[ "quay.io/rhceph-dev" := Sim.credential "xyz";
                     "registry.redhat.io" := Sim.credential "abc" ]}
                   : gmap string any) !! "quay.io/rhceph-dev"
                 = Some (Sim.credential "xyz"))
    by (vm_compute; reflexivity).
  assert (Hv : Sim.credential "xyz" ≠ JNil) by (vm_compute; intros [=]).
  split; [sim_true|]. split; [|sim_true].
  destruct (Sim.install Sim.example_flags Sim.configured) as [[r t] s'] eqn:E.
  exact (proj1 (main_rerun_when_present Sim.decode "kind: ImageContentSourcePolicy"
                  "kind: CatalogSource" Sim.example_flags Sim.configured
                  "cluster" Sim.kconfig _ _ _ _ _ _ _ _ r t s'
                  Epre Elogin Eget Hauths Hkey Hv E)).
Defined.
